(** * UEMCP: the TCP command server of the Unreal Engine MCP plugin

    A shallow embedding of [Source/UEMCP/Private/UEMCPTCPServer.cpp]
    (class [UEMCPTCPServer] and the free function [HandleCommand]) and the
    properties of its lifecycle ([Start], [Stop], [Tick]), of its connection
    handling and of its command dispatch.

    Layout:
    - the engine types the server touches ([FString], [FVector], sockets);
    - the interfaces of the engine libraries the code calls but does not
      contain (the operations of [FString], the JSON library, the object
      registry and the world), as type classes;
    - the socket subsystem, as a finite table of sockets;
    - the server itself, function by function, in explicit state passing;
    - reference instances of the interfaces, used to run the model;
    - the properties. *)

From Stdlib Require Import ZArith Lia List.
From Stdlib Require Import Strings.Byte Strings.Ascii.
From Stdlib Require Strings.String Numbers.Cyclic.Int63.Uint63.
From Stdlib Require Import Floats.
From stdpp Require Import base list gmap strings pretty.

Set Warnings "-register-all".

Local Open Scope Z_scope.

(** ** Engine types *)

(** [FString]: the payloads, names and log texts. *)
Definition FString := string.

(** [FVector(X, Y, Z)] and [FRotator(Pitch, Yaw, Roll)]; the components are
    the doubles [FJsonValue::AsNumber] returns. *)
Record FVector := MkFVector { VecX : float; VecY : float; VecZ : float }.
Record FRotator := MkFRotator { Pitch : float; Yaw : float; Roll : float }.

(** [FRotator::ZeroRotator]. *)
Definition ZeroRotator : FRotator := MkFRotator 0%float 0%float 0%float.

(** The verbosity argument of [UE_LOG] (the levels the file uses). *)
Inductive ELogVerbosity := Error | Warning | Log.

(** One argument of a [UE_LOG] format string: [%s] takes an [FString],
    [%d] an [int32]. The format is kept apart from its arguments, as in the
    call. *)
Inductive FmtArg :=
| ArgS (s : FString)
| ArgD (d : Z).

(** [EJson], the tag of a JSON value ([FJsonValue::Type]). *)
Inductive EJson :=
| EJson_None | EJson_Null | EJson_String | EJson_Number
| EJson_Boolean | EJson_Array | EJson_Object.

(** An [FSocket*] that is not [nullptr]: the identity of a socket object.
    A pointer that may be null is an [option FSocket]. *)
Definition FSocket := nat.

(** [ESocketConnectionState]. *)
Inductive ESocketConnectionState :=
| SCS_NotConnected | SCS_Connected | SCS_ConnectionError.

#[global] Instance ESocketConnectionState_eq_dec : EqDecision ESocketConnectionState.
Proof. solve_decision. Defined.

Definition is_connected (s : ESocketConnectionState) : bool :=
  match s with SCS_Connected => true | _ => false end.

(** ** Interfaces of the engine libraries *)

(** The two operations of [FString] the file uses.
    - [FString_eq]: [FString::operator==] (the comparison
      [Intent == TEXT("spawn_actor")] goes through it);
    - [FString_of_chars]: the constructor [FString(int32 Len, const char* Src)],
      which [HandleData] calls on the [Read] bytes it received. How the
      engine turns bytes into the characters of an [FString] is its own
      business: nothing is assumed of it, in particular not that the bytes can
      be read back from the string. *)
Class FStringOps := {
  FString_eq : FString -> FString -> bool;
  FString_of_chars : list byte -> FString
}.

(** The JSON library ([Json.h]): the reader with [FJsonSerializer::Deserialize]
    into a [TSharedPtr<FJsonObject>], the typed field accessors of
    [FJsonObject], and [FJsonValue] with its tag and [AsNumber].

    [Deserialize s] is [Some o] exactly when the call returns true and the
    object pointer is valid (the test of [HandleCommand]); each [TryGet...]
    is [Some v] when the call returns true with out-parameter [v]. *)
Class JsonLibrary := {
  FJsonObject : Type;
  FJsonValue : Type;
  Deserialize : FString -> option FJsonObject;
  TryGetStringField : FJsonObject -> FString -> option FString;
  TryGetObjectField : FJsonObject -> FString -> option FJsonObject;
  TryGetArrayField : FJsonObject -> FString -> option (list FJsonValue);
  JsonType : FJsonValue -> EJson;
  AsNumber : FJsonValue -> float
}.

(** The host engine as [HandleCommand] uses it: the object registry
    ([FindObject<UClass>(ANY_PACKAGE, Name)]), the first world context
    ([GEngine->GetWorldContexts()[0].World()], a pointer that may be null) and
    [UWorld::SpawnActor<AActor>], which may fail (null) and changes the
    engine's state. *)
Class Engine := {
  Host : Type;
  UClass : Type;
  UWorld : Type;
  AActor : Type;
  FindObject : FString -> Host -> option UClass;
  GetWorld : Host -> option UWorld;
  SpawnActor : UWorld -> UClass -> FVector -> FRotator -> Host -> option AActor * Host;
  GetName : AActor -> FString
}.

(** ** The socket subsystem *)

(** What the subsystem holds for one client socket: the bytes received and
    not yet read, and the connection state. *)
Record Peer := MkPeer {
  rx : list byte;
  conn : ESocketConnectionState
}.

(** The state of [ISocketSubsystem] at one instant.
    - [subsystem]: [ISocketSubsystem::Get(PLATFORM_SOCKETSUBSYSTEM)] is not null;
    - [can_query]: [HasPendingConnection] on the listening socket succeeds
      (returns true);
    - [can_listen p]: a reusable socket can be bound to port [p] and listen;
    - [backlog]: the inbound connections not yet accepted, oldest first;
      [None] is one whose [Accept] returns null;
    - [sockets]: the client sockets that exist;
    - [next]: the identity the next socket object gets. *)
Record OS := MkOS {
  subsystem : bool;
  can_query : bool;
  can_listen : Z -> bool;
  backlog : list (option Peer);
  sockets : gmap FSocket Peer;
  next : FSocket
}.

(** The conversion [int32 -> uint16] at [FIPv4Endpoint(Address, Port)]. *)
Definition to_uint16 (Port : Z) : Z := Port mod 65536.

(** The largest read of [HandleData]: [FMath::Min(Size, 65507u)]. *)
Definition MaxRead : Z := 65507.

(** Bytes pending on a socket ([0] for a socket the subsystem does not hold). *)
Definition pending (s : FSocket) (o : OS) : nat :=
  match sockets o !! s with
  | Some p => length (rx p)
  | None => 0%nat
  end.

(** The connection state of a socket (not connected once released). *)
Definition conn_state (s : FSocket) (o : OS) : ESocketConnectionState :=
  match sockets o !! s with
  | Some p => conn p
  | None => SCS_NotConnected
  end.

(** [Recv(Data, BufferSize, Read)]: the first [BufferSize] pending bytes
    leave the socket; [Read] is their number. *)
Definition os_recv (s : FSocket) (BufferSize : Z) (o : OS) : list byte * OS :=
  match sockets o !! s with
  | Some p =>
      (take (Z.to_nat BufferSize) (rx p),
       MkOS (subsystem o) (can_query o) (can_listen o) (backlog o)
            (<[s := MkPeer (drop (Z.to_nat BufferSize) (rx p)) (conn p)]> (sockets o))
            (next o))
  | None => ([], o)
  end.

(** [FTcpSocketBuilder(..).AsReusable().BoundToEndpoint(..).Listening(8)]:
    a new socket object, or null when the port cannot be bound. *)
Definition os_listen (Port : Z) (o : OS) : option FSocket * OS :=
  if can_listen o (to_uint16 Port)
  then (Some (next o),
        MkOS (subsystem o) (can_query o) (can_listen o) (backlog o) (sockets o) (S (next o)))
  else (None, o).

(** [ListenSocket->Accept(..)]: takes the oldest inbound connection. *)
Definition os_accept (o : OS) : option FSocket * OS :=
  match backlog o with
  | [] => (None, o)
  | None :: rest =>
      (None, MkOS (subsystem o) (can_query o) (can_listen o) rest (sockets o) (next o))
  | Some p :: rest =>
      (Some (next o),
       MkOS (subsystem o) (can_query o) (can_listen o) rest (<[next o := p]> (sockets o)) (S (next o)))
  end.

(** [ISocketSubsystem::DestroySocket]: the socket object is released. *)
Definition os_destroy (s : FSocket) (o : OS) : OS :=
  MkOS (subsystem o) (can_query o) (can_listen o) (backlog o) (delete s (sockets o)) (next o).

(** The socket the next [Accept] adds, if any. *)
Definition accepted (o : OS) : list FSocket :=
  if can_query o then
    match backlog o with
    | Some _ :: _ => [next o]
    | _ => []
    end
  else [].

(** ** The server *)

Section Server.

Context {strings_ops : FStringOps} {json : JsonLibrary} {engine : Engine}.

(** Every call that leaves the file, in the order the calls are made. *)
Inductive Event :=
| EvLog (v : ELogVerbosity) (fmt : FString) (args : list FmtArg)
| EvListening (Port : Z) (backlog_size : Z)
| EvHasPendingConnection (l : FSocket)
| EvAccept (l : FSocket)
| EvHasPendingData (c : FSocket)
| EvRecv (c : FSocket) (BufferSize : Z)
| EvGetConnectionState (c : FSocket)
| EvClose (s : FSocket)
| EvDestroySocket (s : FSocket)
| EvFindObject (Name : FString)
| EvGetWorld
| EvSpawnActor (Class : UClass) (Location : FVector) (Rotation : FRotator).

(** Everything outside the server object: the socket subsystem, the engine,
    and the calls made so far (oldest first). *)
Record World := MkWorld {
  os : OS;
  host : Host;
  trace : list Event
}.

Definition emit (e : Event) (w : World) : World :=
  MkWorld (os w) (host w) (trace w ++ [e]).

Definition with_os (o : OS) (w : World) : World :=
  MkWorld o (host w) (trace w).

(** [UE_LOG(LogTemp, v, TEXT(fmt), args...)]. *)
Definition UE_LOG (v : ELogVerbosity) (fmt : FString) (args : list FmtArg)
  : World -> World :=
  emit (EvLog v fmt args).

(** *** The calls into the engine and the subsystem, each with its event *)

Definition call_FindObject (Name : FString) (w : World) : option UClass * World :=
  (FindObject Name (host w), emit (EvFindObject Name) w).

Definition call_GetWorld (w : World) : option UWorld * World :=
  (GetWorld (host w), emit EvGetWorld w).

Definition call_SpawnActor (Wd : UWorld) (C : UClass) (L : FVector) (R : FRotator)
    (w : World) : option AActor * World :=
  let '(a, h) := SpawnActor Wd C L R (host w) in
  (a, MkWorld (os w) h (trace w ++ [EvSpawnActor C L R])).

Definition call_Listening (Port : Z) (w : World) : option FSocket * World :=
  let '(s, o) := os_listen Port (os w) in
  (s, with_os o (emit (EvListening (to_uint16 Port) 8) w)).

(** [l->HasPendingConnection(b)]: whether the query succeeded, and [b],
    which tells whether an inbound connection waits ([b] is only read after a
    query that succeeded). *)
Definition call_HasPendingConnection (l : FSocket) (w : World) : bool * bool * World :=
  (can_query (os w),
   match backlog (os w) with [] => false | _ => true end,
   emit (EvHasPendingConnection l) w).

Definition call_Accept (l : FSocket) (w : World) : option FSocket * World :=
  let '(s, o) := os_accept (os w) in
  (s, with_os o (emit (EvAccept l) w)).

(** [c->HasPendingData(Size)]: [Some Size] when it returns true. *)
Definition call_HasPendingData (c : FSocket) (w : World) : option Z * World :=
  (match pending c (os w) with
   | O => None
   | n => Some (Z.of_nat n)
   end,
   emit (EvHasPendingData c) w).

(** [c->Recv(Data, BufferSize, Read)]: the bytes read; [Read] is their
    number. *)
Definition call_Recv (c : FSocket) (BufferSize : Z) (w : World) : list byte * World :=
  let '(d, o) := os_recv c BufferSize (os w) in
  (d, with_os o (emit (EvRecv c BufferSize) w)).

Definition call_GetConnectionState (c : FSocket) (w : World)
  : ESocketConnectionState * World :=
  (conn_state c (os w), emit (EvGetConnectionState c) w).

Definition call_Close (s : FSocket) (w : World) : World :=
  emit (EvClose s) w.

(** [ISocketSubsystem::Get(PLATFORM_SOCKETSUBSYSTEM)->DestroySocket(s)]. The
    subsystem is the one [Start_Internal] found: the server only destroys
    sockets while it runs. *)
Definition call_DestroySocket (s : FSocket) (w : World) : World :=
  with_os (os_destroy s (os w)) (emit (EvDestroySocket s) w).

(** *** [HandleCommand] (lines 192-270) *)

Definition HandleCommand (JsonString : FString) (w : World) : World :=
  match Deserialize JsonString with
  | None =>
      UE_LOG Error "Failed to parse JSON command: %s" [ArgS JsonString] w
  | Some JsonObject =>
  match TryGetStringField JsonObject "intent" with
  | None =>
      UE_LOG Error "Missing 'intent' field in command." [] w
  | Some Intent =>
  if FString_eq Intent "spawn_actor" then
    match TryGetObjectField JsonObject "parameters" with
    | None =>
        UE_LOG Error "Missing 'parameters' for spawn_actor." [] w
    | Some ParametersObject =>
    match TryGetStringField ParametersObject "class" with
    | None =>
        UE_LOG Error "Missing 'class' parameter for spawn_actor." [] w
    | Some ClassName =>
    match TryGetArrayField ParametersObject "location" with
    | Some [L0; L1; L2] =>
        (* the array has Num() == 3: elements 0, 1 and 2 exist *)
        let Location := MkFVector (AsNumber L0) (AsNumber L1) (AsNumber L2) in
        match call_FindObject ClassName w with
        | (None, w1) =>
            UE_LOG Error "Could not find class: %s" [ArgS ClassName] w1
        | (Some ActorClass, w1) =>
        match call_GetWorld w1 with
        | (None, w2) =>
            UE_LOG Error "Could not get world context." [] w2
        | (Some Wd, w2) =>
        match call_SpawnActor Wd ActorClass Location ZeroRotator w2 with
        | (Some NewActor, w3) =>
            UE_LOG Log "Successfully spawned actor: %s" [ArgS (GetName NewActor)] w3
        | (None, w3) =>
            UE_LOG Error "Failed to spawn actor of class: %s" [ArgS ClassName] w3
        end
        end
        end
    | _ =>
        (* TryGetArrayField failed, or LocationArray->Num() != 3 *)
        UE_LOG Error
          "Invalid 'location' parameter for spawn_actor. Must be an array of 3 numbers."
          [] w
    end
    end
    end
  else
    UE_LOG Warning "Unknown intent: %s" [ArgS Intent] w
  end
  end.

(** *** The server object (UEMCPTCPServer.h, lines 56-59) *)

Record UEMCPTCPServer := MkServer {
  ListenSocket : option FSocket;
  ConnectedSockets : list FSocket;
  bIsServerRunning : bool
}.

(** The constructor (lines 60-64). *)
Definition new_server : UEMCPTCPServer := MkServer None [] false.

(** [TArray::Remove(Item)]: every element equal to [Item] goes, the order
    of the others stays. *)
Definition TArray_Remove (Item : FSocket) (a : list FSocket) : list FSocket :=
  filter (fun s => s <> Item) a.

(** *** [Start_Internal] (lines 72-105) *)

Definition Start_Internal (Port : Z) (this : UEMCPTCPServer) (w : World)
  : bool * UEMCPTCPServer * World :=
  if bIsServerRunning this then
    (true, this, UE_LOG Warning "UEMCP Server already running." [] w)
  else if negb (subsystem (os w)) then
    (false, this, UE_LOG Error "Failed to get Socket Subsystem" [] w)
  else
    let '(sock, w1) := call_Listening Port w in
    let this1 := MkServer sock (ConnectedSockets this) (bIsServerRunning this) in
    match sock with
    | None =>
        (false, this1,
         UE_LOG Error "Failed to create listen socket on port %d" [ArgD Port] w1)
    | Some _ =>
        (true, MkServer sock (ConnectedSockets this1) true,
         UE_LOG Log "UEMCP Server started, listening on port %d" [ArgD Port] w1)
    end.

(** *** [Stop_Internal] (lines 107-130) *)

(** The range-for over [ConnectedSockets]: [Close] then [DestroySocket]. *)
Fixpoint close_all (l : list FSocket) (w : World) : World :=
  match l with
  | [] => w
  | Socket :: rest => close_all rest (call_DestroySocket Socket (call_Close Socket w))
  end.

Definition Stop_Internal (this : UEMCPTCPServer) (w : World)
  : UEMCPTCPServer * World :=
  if negb (bIsServerRunning this) then (this, w)
  else
    let w1 := close_all (ConnectedSockets this) w in
    let w2 :=
      match ListenSocket this with
      | Some l => call_DestroySocket l (call_Close l w1)
      | None => w1
      end in
    (MkServer None [] false, UE_LOG Log "UEMCP Server stopped." [] w2).

(** *** [HandleNewConnection] (lines 148-160) *)

(** [None] is the run in which [ListenSocket->HasPendingConnection] is
    called through a null [ListenSocket]. *)
Definition HandleNewConnection (this : UEMCPTCPServer) (w : World)
  : option (UEMCPTCPServer * World) :=
  match ListenSocket this with
  | None => None
  | Some l =>
      let '(ok, bHasPendingConnection, w1) := call_HasPendingConnection l w in
      if ok && bHasPendingConnection then
        match call_Accept l w1 with
        | (Some ClientSocket, w2) =>
            Some (MkServer (ListenSocket this)
                           (ConnectedSockets this ++ [ClientSocket])
                           (bIsServerRunning this),
                  UE_LOG Log "Accepted new client connection." [] w2)
        | (None, w2) => Some (this, w2)
        end
      else Some (this, w1)
  end.

(** *** [HandleData] (lines 162-190) *)

(** The body of the [while] loop: one read of at most 65507 bytes and, when
    something was read, the command in it. *)
Definition receive (ClientSocket : FSocket) (Size : Z) (w : World) : World :=
  let '(ReceivedData, w1) := call_Recv ClientSocket (Z.min Size MaxRead) w in
  let Read := Z.of_nat (length ReceivedData) in
  if 0 <? Read then
    let ReceivedString : FString := FString_of_chars ReceivedData in
    HandleCommand ReceivedString (UE_LOG Log "Received: %s" [ArgS ReceivedString] w1)
  else w1.

(** The [while (ClientSocket->HasPendingData(Size))] loop. Every turn reads
    [Min(Size, 65507)] bytes, at least one, so the loop makes at most as
    many turns as bytes were pending when it started, and then one more test
    of its condition: [tests] bounds the number of tests, and [HandleData]
    passes [S (pending ..)]. The loop always leaves through its condition,
    never through the bound ([drain_exits], [drain_bound_irrelevant]). *)
Fixpoint drain (tests : nat) (ClientSocket : FSocket) (w : World) : World :=
  match tests with
  | O => w
  | S tests' =>
      match call_HasPendingData ClientSocket w with
      | (None, w1) => w1
      | (Some Size, w1) => drain tests' ClientSocket (receive ClientSocket Size w1)
      end
  end.

Definition HandleData (ClientSocket : FSocket) (this : UEMCPTCPServer) (w : World)
  : UEMCPTCPServer * World :=
  let w1 := drain (S (pending ClientSocket (os w))) ClientSocket w in
  let '(state, w2) := call_GetConnectionState ClientSocket w1 in
  if is_connected state then (this, w2)
  else
    let w3 := UE_LOG Log "Client disconnected." [] w2 in
    (MkServer (ListenSocket this)
              (TArray_Remove ClientSocket (ConnectedSockets this))
              (bIsServerRunning this),
     call_DestroySocket ClientSocket w3).

(** *** [Tick_Internal] (lines 132-146) *)

(** The loop [for (i = Num() - 1; i >= 0; --i) HandleData(ConnectedSockets[i])],
    with [n = i + 1]. [None] is the run in which [ConnectedSockets[i]] is
    out of range. *)
Fixpoint Tick_loop (n : nat) (this : UEMCPTCPServer) (w : World)
  : option (UEMCPTCPServer * World) :=
  match n with
  | O => Some (this, w)
  | S i =>
      match ConnectedSockets this !! i with
      | None => None
      | Some ClientSocket =>
          let '(this1, w1) := HandleData ClientSocket this w in
          Tick_loop i this1 w1
      end
  end.

Definition Tick_Internal (this : UEMCPTCPServer) (w : World)
  : option (UEMCPTCPServer * World) :=
  if negb (bIsServerRunning this) then Some (this, w)
  else
    match HandleNewConnection this w with
    | None => None
    | Some (this1, w1) => Tick_loop (length (ConnectedSockets this1)) this1 w1
    end.

(** *** The singleton and the static API (lines 18-56) *)

(** [Get()]: the instance, made on first use. *)
Definition Get (Instance : option UEMCPTCPServer) : UEMCPTCPServer :=
  match Instance with
  | Some this => this
  | None => new_server
  end.

Definition Start (Port : Z) (Instance : option UEMCPTCPServer) (w : World)
  : bool * option UEMCPTCPServer * World :=
  let '(r, this, w') := Start_Internal Port (Get Instance) w in
  (r, Some this, w').

Definition Stop (Instance : option UEMCPTCPServer) (w : World)
  : option UEMCPTCPServer * World :=
  let '(this, w') := Stop_Internal (Get Instance) w in
  (Some this, w').

Definition Tick (Instance : option UEMCPTCPServer) (w : World)
  : option (option UEMCPTCPServer * World) :=
  match Tick_Internal (Get Instance) w with
  | Some (this, w') => Some (Some this, w')
  | None => None
  end.

(** [Shutdown()]: [Stop_Internal], then [Instance.Reset()], whose destructor
    runs [Stop_Internal] once more (lines 66-70). *)
Definition Shutdown (Instance : option UEMCPTCPServer) (w : World)
  : option UEMCPTCPServer * World :=
  match Instance with
  | Some this =>
      let '(this1, w1) := Stop_Internal this w in
      let '(_, w2) := Stop_Internal this1 w1 in
      (None, w2)
  | None => (None, w)
  end.

(** *** Reading a trace *)

(** What a list of events says of the sockets, each in the order of the
    calls: [closed], the sockets [Close()] was called on; [released], the
    sockets handed to [DestroySocket], which deletes the socket object and
    with it frees the handle; [polled], the sockets asked for their connection
    state, once at the end of every [HandleData]. [resolved] and [spawned] are
    the calls of [FindObject] and [SpawnActor]. *)
Definition closed (evs : list Event) : list FSocket :=
  omap (fun e => match e with EvClose s => Some s | _ => None end) evs.

Definition released (evs : list Event) : list FSocket :=
  omap (fun e => match e with EvDestroySocket s => Some s | _ => None end) evs.

Definition polled (evs : list Event) : list FSocket :=
  omap (fun e => match e with EvGetConnectionState c => Some c | _ => None end) evs.

Definition resolved (evs : list Event) : list FString :=
  omap (fun e => match e with EvFindObject n => Some n | _ => None end) evs.

Definition spawned (evs : list Event) : list (UClass * FVector * FRotator) :=
  omap (fun e => match e with EvSpawnActor C L R => Some (C, L, R) | _ => None end) evs.

(** The two error lines of the parsing step of [HandleCommand]: the
    document is no object, the object delivers no intent. *)
Definition is_parse_error (e : Event) : bool :=
  match e with
  | EvLog Error fmt _ =>
      String.eqb fmt "Failed to parse JSON command: %s"
      || String.eqb fmt "Missing 'intent' field in command."
  | _ => false
  end.

(** The calls on sockets, as opposed to log lines and engine calls. *)
Definition is_socket_event (e : Event) : bool :=
  match e with
  | EvLog _ _ _ | EvFindObject _ | EvGetWorld | EvSpawnActor _ _ _ => false
  | _ => true
  end.

(** The calls that end or test a connection: the ones [closed], [released]
    and [polled] read. *)
Definition is_lifecycle_event (e : Event) : bool :=
  match e with
  | EvClose _ | EvDestroySocket _ | EvGetConnectionState _ => true
  | _ => false
  end.

(** [o'] differs from [o] at most in what it holds for socket [c]. *)
Definition os_kept_except (c : FSocket) (o o' : OS) : Prop :=
  subsystem o' = subsystem o /\
  can_query o' = can_query o /\
  can_listen o' = can_listen o /\
  backlog o' = backlog o /\
  next o' = next o /\
  forall c', c' <> c -> sockets o' !! c' = sockets o !! c'.

(** One turn of the loop of [Tick_Internal]. *)
Definition poll (st : UEMCPTCPServer * World) (c : FSocket) : UEMCPTCPServer * World :=
  HandleData c st.1 st.2.

(** The connections whose state is [SCS_Connected] in [o], and the others. *)
Definition still_connected (o : OS) (l : list FSocket) : list FSocket :=
  filter (fun c => is_connected (conn_state c o) = true) l.

Definition disconnected (o : OS) (l : list FSocket) : list FSocket :=
  filter (fun c => is_connected (conn_state c o) = false) l.

(** The calls that close and release the sockets of [a], in order. *)
Definition closing (a : list FSocket) : list Event :=
  flat_map (fun s => [EvClose s; EvDestroySocket s]) a.

(** The handles a server object owns. *)
Definition owned (this : UEMCPTCPServer) : list FSocket :=
  ConnectedSockets this ++ option_list (ListenSocket this).

(** *** Calls and the world between them *)

(** What ties a server object to the subsystem: a running server has its
    listening socket, the handles it owns are pairwise distinct, and the
    subsystem issued each of them. *)
Definition consistent (this : UEMCPTCPServer) (w : World) : Prop :=
  (bIsServerRunning this = true -> is_Some (ListenSocket this)) /\
  NoDup (owned this) /\
  Forall (fun s => (s < next (os w))%nat) (owned this).

(** *** Well-shaped commands *)

(** The shape of a [spawn_actor] command that passes every test of
    [HandleCommand] up to the class lookup: intent, parameters object, class
    name and a location array of three elements. *)
Definition spawn_request (JsonString : FString) (ClassName : FString)
    (L0 L1 L2 : FJsonValue) : Prop :=
  exists JsonObject Intent ParametersObject,
    Deserialize JsonString = Some JsonObject /\
    TryGetStringField JsonObject "intent" = Some Intent /\
    FString_eq Intent "spawn_actor" = true /\
    TryGetObjectField JsonObject "parameters" = Some ParametersObject /\
    TryGetStringField ParametersObject "class" = Some ClassName /\
    TryGetArrayField ParametersObject "location" = Some [L0; L1; L2].

(** *** Sequences of API calls *)

Inductive Call :=
| CallStart (Port : Z)
| CallStop
| CallTick
| CallShutdown.

(** One call of the static API on the singleton; [None] when the call
    goes through a null pointer or past the end of the array. *)
Definition run (c : Call) (Instance : option UEMCPTCPServer) (w : World)
  : option (option UEMCPTCPServer * World) :=
  match c with
  | CallStart Port =>
      let '(_, i, w') := Start Port Instance w in Some (i, w')
  | CallStop => Some (Stop Instance w)
  | CallTick => Tick Instance w
  | CallShutdown => Some (Shutdown Instance w)
  end.

(** The singleton after any sequence of calls, from process start (no
    instance). Between two calls the world is whatever the network and the
    engine made of it: each call meets an arbitrary world. *)
Inductive reachable : option UEMCPTCPServer -> Prop :=
| reachable_init : reachable None
| reachable_call c i w i' w' :
    reachable i -> run c i w = Some (i', w') -> reachable i'.

(** The same with the world in view. Between two calls the network and the
    engine do as they like (data arrives, clients connect and leave), except
    that the subsystem never issues an identity twice. *)
Inductive reachable_in : option UEMCPTCPServer -> World -> Prop :=
| reachable_in_init w : reachable_in None w
| reachable_in_call c i w i' w' :
    reachable_in i w -> run c i w = Some (i', w') -> reachable_in i' w'
| reachable_in_moves i w w' :
    reachable_in i w ->
    (next (os w) <= next (os w'))%nat ->
    trace w' = trace w ->
    reachable_in i w'.

End Server.

(** ** The module that drives the server (Source/UEMCP/Private/UEMCP.cpp) *)

(** [GEngine] with its [OnWorldTick] delegate list: whether the pointer is
    set, the handles bound to the delegate (oldest first), and the handle the
    next [AddRaw] returns. *)
Record Editor := MkEditor {
  GEngine : bool;
  OnWorldTick : list nat;
  next_delegate : nat
}.

(** [OnWorldTick().AddRaw(this, &FUEMCPModule::Tick)]. *)
Definition AddRaw (e : Editor) : nat * Editor :=
  (next_delegate e,
   MkEditor (GEngine e) (OnWorldTick e ++ [next_delegate e]) (S (next_delegate e))).

(** [OnWorldTick().Remove(Handle)]; a handle that was never set (a default
    [FDelegateHandle], here [None]) binds nothing. *)
Definition Remove (Handle : option nat) (e : Editor) : Editor :=
  match Handle with
  | Some h =>
      MkEditor (GEngine e) (filter (fun x => x <> h) (OnWorldTick e)) (next_delegate e)
  | None => e
  end.

(** The module object (UEMCP.h, line 23). *)
Record FUEMCPModule := MkModule {
  TickDelegateHandle : option nat
}.

Section Module.

Context {strings_ops : FStringOps} {json : JsonLibrary} {engine : Engine}.

(** The process as the module sees it: the module object, the singleton
    [UEMCPTCPServer::Instance], the editor's delegates and the world. *)
Record Process := MkProcess {
  module_object : FUEMCPModule;
  Instance : option UEMCPTCPServer;
  editor : Editor;
  world : World
}.

(** [FUEMCPModule::StartupModule] (lines 10-22); the result of [Start] is
    dropped. *)
Definition StartupModule (p : Process) : Process :=
  let w1 := UE_LOG Warning "UEMCP module has started" [] (world p) in
  let '(_, i, w2) := Start 7000 (Instance p) w1 in
  if GEngine (editor p) then
    let '(h, e) := AddRaw (editor p) in
    MkProcess (MkModule (Some h)) i e w2
  else MkProcess (module_object p) i (editor p) w2.

(** [FUEMCPModule::ShutdownModule] (lines 24-36). *)
Definition ShutdownModule (p : Process) : Process :=
  let w1 := UE_LOG Warning "UEMCP module has shut down" [] (world p) in
  let '(i, w2) := Shutdown (Instance p) w1 in
  if GEngine (editor p) then
    MkProcess (module_object p) i
              (Remove (TickDelegateHandle (module_object p)) (editor p)) w2
  else MkProcess (module_object p) i (editor p) w2.

(** [FUEMCPModule::Tick] (lines 38-42); [None] as for [Tick]. *)
Definition FUEMCPModule_Tick (DeltaTime : float) (p : Process) : option Process :=
  match Tick (Instance p) (world p) with
  | Some (i, w) => Some (MkProcess (module_object p) i (editor p) w)
  | None => None
  end.

(** *** More readings of a trace *)

(** The payloads handed to [HandleCommand]: [HandleData] logs each one as
    "Received: %s" right before the call, and no other line has that format. *)
Definition received (evs : list Event) : list FString :=
  omap (fun e =>
          match e with
          | EvLog Log fmt [ArgS s] =>
              if String.eqb fmt "Received: %s" then Some s else None
          | _ => None
          end) evs.

(** The bytes waiting on a socket (none for a socket the subsystem does not
    hold). *)
Definition rx_of (c : FSocket) (o : OS) : list byte :=
  match sockets o !! c with
  | Some p => rx p
  | None => []
  end.

(** The events of a tick that finds nothing to do on the connections [a]:
    per connection one test for data and one for the connection state. *)
Definition idle_polls (a : list FSocket) : list Event :=
  flat_map (fun c => [EvHasPendingData c; EvGetConnectionState c]) a.

(** The socket the next [Accept] adds and that is still connected when it
    is polled, if any. *)
Definition accepted_connected (o : OS) : list FSocket :=
  if can_query o then
    match backlog o with
    | Some p :: _ => if is_connected (conn p) then [next o] else []
    | _ => []
    end
  else [].

(** A server that is not running, or no server at all. *)
Definition not_running (i : option UEMCPTCPServer) : Prop :=
  match i with
  | Some this => bIsServerRunning this = false
  | None => True
  end.

End Module.

(** ** Reference instances

    One implementation of each interface, small enough to run: exact string
    comparison, a JSON reader for documents without escapes and with integer
    numbers, a string accessor that gives a number or a boolean as its text
    (as [FJsonValue::TryGetString] of the engine's Json module does), object
    and array accessors that convert nothing, and an engine that knows a list
    of class names. The properties below hold for every implementation; these
    ones show them at work on concrete traffic. *)

Module Ref.

(** Exact comparison, and the received bytes as characters, one for one
    (the sample traffic is 7-bit text). *)
Definition strings_ops : FStringOps := {|
  FString_eq := String.eqb;
  FString_of_chars := String.string_of_list_byte
|}.

(** *** JSON values and the reader *)

Inductive JValue :=
| JNull
| JBool (b : bool)
| JNumber (d : float)
| JString (s : string)
| JArray (l : list JValue)
| JObject (m : list (string * JValue)).

(** The members of an object are kept newest first; a name written twice
    reads as its last value. *)
Fixpoint field (k : string) (m : list (string * JValue)) : option JValue :=
  match m with
  | [] => None
  | (k', v) :: rest => if String.eqb k k' then Some v else field k rest
  end.

(** The double quote, and [text]: a document typed with ['] where JSON has
    the double quote. *)
Definition dquote : ascii := ascii_of_nat 34.

Fixpoint text (s : string) : string :=
  match s with
  | EmptyString => EmptyString
  | String c r => String (if Ascii.eqb c "'" then dquote else c) (text r)
  end.

Definition is_ws (c : ascii) : bool :=
  Ascii.eqb c " " || Ascii.eqb c (ascii_of_nat 9)
  || Ascii.eqb c (ascii_of_nat 10) || Ascii.eqb c (ascii_of_nat 13).

Fixpoint skip_ws (s : string) : string :=
  match s with
  | String c r => if is_ws c then skip_ws r else s
  | EmptyString => s
  end.

(** After an opening quote: the characters up to the closing one. *)
Fixpoint read_string (s : string) : option (string * string) :=
  match s with
  | EmptyString => None
  | String c r =>
      if Ascii.eqb c dquote then Some (EmptyString, r)
      else match read_string r with
           | Some (x, r') => Some (String c x, r')
           | None => None
           end
  end.

Definition digit (c : ascii) : option Z :=
  let n := Z.of_nat (nat_of_ascii c) in
  if (48 <=? n) && (n <=? 57) then Some (n - 48) else None.

Fixpoint read_digits (acc : Z) (s : string) : Z * string :=
  match s with
  | String c r =>
      match digit c with
      | Some d => read_digits (10 * acc + d) r
      | None => (acc, s)
      end
  | EmptyString => (acc, s)
  end.

Definition float_of_Z (z : Z) : float :=
  if z <? 0 then PrimFloat.opp (PrimFloat.of_uint63 (Uint63.of_Z (- z)))
  else PrimFloat.of_uint63 (Uint63.of_Z z).

(** An integer literal: an optional minus and at least one digit. *)
Definition read_number (s : string) : option (float * string) :=
  let '(neg, s1) :=
    match s with
    | String "-" r => (true, r)
    | _ => (false, s)
    end in
  match s1 with
  | String c _ =>
      match digit c with
      | Some _ =>
          let '(n, r) := read_digits 0 s1 in
          Some (float_of_Z (if neg then - n else n), r)
      | None => None
      end
  | EmptyString => None
  end.

Definition read_word (w : string) (v : JValue) (s : string) : option (JValue * string) :=
  if String.prefix w s
  then Some (v, String.substring (String.length w) (String.length s - String.length w) s)
  else None.

Section Reader.

Variable value : string -> option (JValue * string).

(** After a first element: [, value]* and the closing bracket. *)
Fixpoint read_elements (n : nat) (acc : list JValue) (s : string)
  : option (list JValue * string) :=
  match n with
  | O => None
  | S n' =>
      match skip_ws s with
      | String "]" r => Some (acc, r)
      | String "," r =>
          match value r with
          | Some (v, r') => read_elements n' (acc ++ [v]) r'
          | None => None
          end
      | _ => None
      end
  end.

Definition read_member (s : string) : option (string * JValue * string) :=
  match skip_ws s with
  | String c r =>
      if Ascii.eqb c dquote then
        match read_string r with
        | Some (k, r1) =>
            match skip_ws r1 with
            | String ":" r2 =>
                match value r2 with
                | Some (v, r3) => Some (k, v, r3)
                | None => None
                end
            | _ => None
            end
        | None => None
        end
      else None
  | EmptyString => None
  end.

(** After a first member: [, member]* and the closing brace. *)
Fixpoint read_members (n : nat) (acc : list (string * JValue)) (s : string)
  : option (list (string * JValue) * string) :=
  match n with
  | O => None
  | S n' =>
      match skip_ws s with
      | String "}" r => Some (acc, r)
      | String "," r =>
          match read_member r with
          | Some (k, v, r') => read_members n' ((k, v) :: acc) r'
          | None => None
          end
      | _ => None
      end
  end.

End Reader.

(** One JSON value at the head of [s]; [depth] bounds the nesting and the
    number of elements of one array or object. *)
Fixpoint read_value (depth : nat) (s : string) : option (JValue * string) :=
  match depth with
  | O => None
  | S d =>
      match skip_ws s with
      | String "{" r =>
          match skip_ws r with
          | String "}" r' => Some (JObject [], r')
          | _ =>
              match read_member (read_value d) r with
              | Some (k, v, r1) =>
                  match read_members (read_value d) (String.length s) [(k, v)] r1 with
                  | Some (m, r2) => Some (JObject m, r2)
                  | None => None
                  end
              | None => None
              end
          end
      | String "[" r =>
          match skip_ws r with
          | String "]" r' => Some (JArray [], r')
          | _ =>
              match read_value d r with
              | Some (v, r1) =>
                  match read_elements (read_value d) (String.length s) [v] r1 with
                  | Some (l, r2) => Some (JArray l, r2)
                  | None => None
                  end
              | None => None
              end
          end
      | String c r as s' =>
          if Ascii.eqb c dquote then
            match read_string r with
            | Some (x, r') => Some (JString x, r')
            | None => None
            end
          else if Ascii.eqb c "t" then read_word "true" (JBool true) s'
          else if Ascii.eqb c "f" then read_word "false" (JBool false) s'
          else if Ascii.eqb c "n" then read_word "null" JNull s'
          else match read_number s' with
               | Some (d', r') => Some (JNumber d', r')
               | None => None
               end
      | EmptyString => None
      end
  end.

(** The document must be one object and nothing else. *)
Definition read_object (s : string) : option (list (string * JValue)) :=
  match read_value (String.length s) s with
  | Some (JObject m, r) =>
      match skip_ws r with
      | EmptyString => Some m
      | _ => None
      end
  | _ => None
  end.

(** The integer a number is, when it is one. *)
Definition integer_of (d : float) : option Z :=
  match Prim2SF d with
  | S754_zero _ => Some 0
  | S754_finite s m e =>
      let n := if 0 <=? e then Z.pos m * 2 ^ e else Z.pos m / 2 ^ (- e) in
      if (0 <=? e) || (Z.pos m mod 2 ^ (- e) =? 0)
      then Some (if s then - n else n)
      else None
  | _ => None
  end.

(** [FJsonValue::TryGetString]: a string is itself; a number and a boolean
    are given as text ([FJsonValueNumber] and [FJsonValueBoolean] override the
    method so: [FString::SanitizeFloat(Value, 0)], and [true] or [false]);
    null, an array and an object have no string form. The numbers the reader
    makes are integers, and the text of an integer is its numeral; a number
    with a fractional part, which no document read here holds, is given no
    text. *)
Definition try_get_string (v : JValue) : option string :=
  match v with
  | JString s => Some s
  | JNumber d =>
      match integer_of d with
      | Some z => Some (pretty z)
      | None => None
      end
  | JBool b => Some (if b then "true" else "false")
  | JNull | JArray _ | JObject _ => None
  end.

(** [FJsonObject::TryGetStringField]: the field, if there is one, through
    [TryGetString]. *)
Definition json : JsonLibrary := {|
  FJsonObject := list (string * JValue);
  FJsonValue := JValue;
  Deserialize := read_object;
  TryGetStringField o k :=
    match field k o with Some v => try_get_string v | None => None end;
  TryGetObjectField o k :=
    match field k o with Some (JObject m) => Some m | _ => None end;
  TryGetArrayField o k :=
    match field k o with Some (JArray l) => Some l | _ => None end;
  JsonType v :=
    match v with
    | JNull => EJson_Null
    | JBool _ => EJson_Boolean
    | JNumber _ => EJson_Number
    | JString _ => EJson_String
    | JArray _ => EJson_Array
    | JObject _ => EJson_Object
    end;
  AsNumber v := match v with JNumber d => d | _ => 0%float end
|}.

(** *** The engine *)

(** The classes the registry knows, whether a world exists, the classes
    that cannot be spawned, and the actors spawned so far (newest first). *)
Record RefHost := MkRefHost {
  known : list string;
  has_world : bool;
  unspawnable : list string;
  actors : list (string * FVector * FRotator)
}.

Definition engine : Engine := {|
  Host := RefHost;
  UClass := string;
  UWorld := unit;
  AActor := string;
  FindObject Name h := if bool_decide (Name ∈ known h) then Some Name else None;
  GetWorld h := if has_world h then Some tt else None;
  SpawnActor _ C L R h :=
    if bool_decide (C ∈ unspawnable h) then (None, h)
    else (Some (C +:+ "_0"),
          MkRefHost (known h) (has_world h) (unspawnable h) ((C, L, R) :: actors h));
  GetName a := a
|}.

End Ref.

(** ** Sample traffic for the reference instances *)

Module Sample.

(** A subsystem with nothing going on: any port can be bound, nobody
    connects, no socket exists yet. *)
Definition quiet : OS := MkOS true true (fun _ => true) [] ∅ 1%nat.

(** An editor that knows the class [Box]; [has_world] tells whether its
    first world context has a world. *)
Definition editor (has_world : bool) : Ref.RefHost :=
  Ref.MkRefHost ["Box"] has_world [] [].

Definition world (o : OS) (h : Ref.RefHost) : @World Ref.engine :=
  @MkWorld Ref.engine o h [].

(** The message of end-to-end scenario A of the specification. *)
Definition spawn_box : FString :=
  Ref.text "{'intent':'spawn_actor','parameters':{'class':'Box','location':[1,2,3]}}".

(** The same request with a location of three values none of which is a
    number. *)
Definition spawn_box_at_words : FString :=
  Ref.text "{'intent':'spawn_actor','parameters':{'class':'Box','location':['a',true,null]}}".

(** The message of end-to-end scenario B of the specification. *)
Definition noop : FString := Ref.text "{'intent':'noop'}".

(** Not a JSON document; a JSON document that is not an object; an object
    without [intent]. *)
Definition garbage : FString := "spawn a box please".
Definition an_array : FString := "[1,2,3]".
Definition no_intent : FString := Ref.text "{'parameters':{}}".

(** Objects whose [intent] is not a string: a number, and null. *)
Definition intent_five : FString := Ref.text "{'intent':5}".
Definition intent_null : FString := Ref.text "{'intent':null}".

(** The object the reference reader makes of a document (empty when it
    makes none), and the [parameters] object inside an object. *)
Definition object_of (s : FString) : @FJsonObject Ref.json :=
  default [] (Ref.read_object s).

Definition parameters_of (o : @FJsonObject Ref.json) : @FJsonObject Ref.json :=
  default [] (@TryGetObjectField Ref.json o "parameters").


(** A client socket with a message waiting on it. *)
Definition peer (msg : FString) (state : ESocketConnectionState) : Peer :=
  MkPeer (String.list_byte_of_string msg) state.

(** A server that listens on socket 1 and has the clients 2 and 3. *)
Definition serving : UEMCPTCPServer := MkServer (Some 1%nat) [2%nat; 3%nat] true.

(** Client 2 has sent the message of scenario B and is connected; client 3
    has sent the message of scenario A and has left since. Nobody waits to be
    accepted. *)
Definition busy : OS :=
  MkOS true true (fun _ => true) []
       (<[2%nat := peer noop SCS_Connected]>
          (<[3%nat := peer spawn_box SCS_NotConnected]> ∅))
       4%nat.

(** A session that leads to the sample server: [Start(7000)] in a quiet
    world, then two ticks, each after one client has connected, and at last
    the state of the network described by [busy]. [arrive] is the network
    moving on between two calls. *)
Definition session_state : Type := option UEMCPTCPServer * @World Ref.engine.

Definition after (c : Call) (st : session_state) : session_state :=
  default st (@run Ref.strings_ops Ref.json Ref.engine c st.1 st.2).

Definition arrive (o : OS) (st : session_state) : session_state :=
  (st.1, @MkWorld Ref.engine o (@host Ref.engine st.2) (@trace Ref.engine st.2)).

Definition first_client : OS :=
  MkOS true true (fun _ => true) [Some (MkPeer [] SCS_Connected)] ∅ 2%nat.

Definition second_client : OS :=
  MkOS true true (fun _ => true) [Some (MkPeer [] SCS_Connected)]
       (<[2%nat := MkPeer [] SCS_Connected]> ∅) 3%nat.

Definition session : list session_state :=
  let s0 : session_state := (None, world quiet (editor true)) in
  let s1 := after (CallStart 7000) s0 in
  let s2 := arrive first_client s1 in
  let s3 := after CallTick s2 in
  let s4 := arrive second_client s3 in
  let s5 := after CallTick s4 in
  let s6 := arrive busy s5 in
  [s0; s1; s2; s3; s4; s5; s6].

(** The state at the end of the sample session. *)
Definition final : session_state :=
  default (None, world quiet (editor true)) (last session).

(** The sample network with one more client knocking: it has sent the
    message of scenario B along with its connection request. *)
Definition knocking : OS :=
  MkOS true true (fun _ => true) [Some (peer noop SCS_Connected)]
       (<[2%nat := peer noop SCS_Connected]>
          (<[3%nat := peer spawn_box SCS_NotConnected]> ∅))
       4%nat.

(** The sample network at rest: both clients connected, nothing sent, nobody
    knocking. *)
Definition idle : OS :=
  MkOS true true (fun _ => true) []
       (<[2%nat := MkPeer [] SCS_Connected]>
          (<[3%nat := MkPeer [] SCS_Connected]> ∅))
       4%nat.

(** A subsystem on which no port can be bound. *)
Definition blocked : OS := MkOS true true (fun _ => false) [] ∅ 1%nat.

(** [spawn_actor] commands that fail validation: no parameters, no class, a
    location of two numbers (for a class the editor does not know), a class
    the editor does not know. *)
Definition spawn_bare : FString := Ref.text "{'intent':'spawn_actor'}".
Definition spawn_classless : FString :=
  Ref.text "{'intent':'spawn_actor','parameters':{'location':[1,2,3]}}".
Definition spawn_flat : FString :=
  Ref.text "{'intent':'spawn_actor','parameters':{'class':'Sphere','location':[1,2]}}".
Definition spawn_sphere : FString :=
  Ref.text "{'intent':'spawn_actor','parameters':{'class':'Sphere','location':[1,2,3]}}".

(** The sample server after one tick in the sample world. *)
Definition ticked : UEMCPTCPServer * @World Ref.engine :=
  default (serving, world busy (editor true))
          (@Tick_Internal Ref.strings_ops Ref.json Ref.engine
             serving (world busy (editor true))).

(** A process before the module starts: no singleton, an editor with two
    delegates bound by others. *)
Definition fresh_process (o : OS) : @Process Ref.engine :=
  @MkProcess Ref.engine (MkModule None) None (MkEditor true [0%nat; 1%nat] 2%nat)
             (world o (editor true)).

End Sample.

(** ** Properties of command handling *)

Section CommandProperties.

Context {strings_ops : FStringOps} {json : JsonLibrary} {engine : Engine}.

Implicit Types (w : World) (evs : list Event) (this : UEMCPTCPServer).

(** What [HandleCommand] does on such a command, step by step. *)
Lemma HandleCommand_spawn_request JsonString ClassName L0 L1 L2 w :
  spawn_request JsonString ClassName L0 L1 L2 ->
  HandleCommand JsonString w =
    let Location := MkFVector (AsNumber L0) (AsNumber L1) (AsNumber L2) in
    match call_FindObject ClassName w with
    | (None, w1) => UE_LOG Error "Could not find class: %s" [ArgS ClassName] w1
    | (Some ActorClass, w1) =>
        match call_GetWorld w1 with
        | (None, w2) => UE_LOG Error "Could not get world context." [] w2
        | (Some Wd, w2) =>
            match call_SpawnActor Wd ActorClass Location ZeroRotator w2 with
            | (Some NewActor, w3) =>
                UE_LOG Log "Successfully spawned actor: %s" [ArgS (GetName NewActor)] w3
            | (None, w3) =>
                UE_LOG Error "Failed to spawn actor of class: %s" [ArgS ClassName] w3
            end
        end
    end.
Proof.
  intros (o & Intent & P & HD & HI & HE & HP & HC & HL).
  unfold HandleCommand. rewrite HD, HI, HE, HP, HC, HL. reflexivity.
Qed.

(** [HandleCommand] only appends to the trace, and what it appends is never
    a call on a socket; the socket subsystem is left as it was. *)
Lemma HandleCommand_frame JsonString w :
  os (HandleCommand JsonString w) = os w /\
  exists evs,
    trace (HandleCommand JsonString w) = trace w ++ evs /\
    Forall (fun e => is_socket_event e = false) evs.
Proof.
  unfold HandleCommand, call_FindObject, call_GetWorld, call_SpawnActor, UE_LOG, emit.
  repeat match goal with
         | |- context [SpawnActor ?a ?b ?c ?d ?e] => destruct (SpawnActor a b c d e) eqn:?
         | |- context [match ?x with _ => _ end] => destruct x eqn:?
         end;
    simplify_eq/=; (split; [reflexivity|]);
    rewrite <- ?(assoc_L (++)); eexists; (split; [reflexivity|]);
    repeat constructor.
Qed.

Lemma HandleCommand_os JsonString w : os (HandleCommand JsonString w) = os w.
Proof. apply HandleCommand_frame. Qed.

(** A location that is no array, or an array of another length than three,
    is refused before any call into the engine. *)
Lemma HandleCommand_location_not_three JsonString w JsonObject Intent P ClassName :
  Deserialize JsonString = Some JsonObject ->
  TryGetStringField JsonObject "intent" = Some Intent ->
  FString_eq Intent "spawn_actor" = true ->
  TryGetObjectField JsonObject "parameters" = Some P ->
  TryGetStringField P "class" = Some ClassName ->
  match TryGetArrayField P "location" with
  | Some a => length a <> 3%nat
  | None => True
  end ->
  HandleCommand JsonString w =
    MkWorld (os w) (host w)
      (trace w ++
       [EvLog Error
          "Invalid 'location' parameter for spawn_actor. Must be an array of 3 numbers."
          []]).
Proof.
  intros HD HI HE HP HC HL. unfold HandleCommand.
  rewrite HD, HI, HE, HP, HC.
  destruct (TryGetArrayField P "location") as [[|L0 [|L1 [|L2 [|L3 a]]]]|];
    simpl in HL; try reflexivity; lia.
Qed.

(** The kinds of the three elements play no part: the class is looked up
    whatever [JsonType] says of them. *)
Lemma HandleCommand_three_elements_resolve JsonString ClassName L0 L1 L2 w :
  spawn_request JsonString ClassName L0 L1 L2 ->
  exists evs,
    trace (HandleCommand JsonString w) = trace w ++ EvFindObject ClassName :: evs.
Proof.
  intros H. rewrite (HandleCommand_spawn_request _ _ _ _ _ _ H).
  unfold call_FindObject, call_GetWorld, call_SpawnActor, UE_LOG, emit. cbn zeta.
  repeat match goal with
         | |- context [SpawnActor ?a ?b ?c ?d ?e] => destruct (SpawnActor a b c d e) eqn:?
         | |- context [match ?x with _ => _ end] => destruct x eqn:?
         end;
    simplify_eq/=; rewrite <- ?(assoc_L (++)); eexists; reflexivity.
Qed.

(** C4 (amended). A payload that [FJsonSerializer::Deserialize] does not
    read as an object (the MalformedJson case) is answered by the one error
    line "Failed to parse JSON command", and an object from which
    [TryGetStringField] delivers no [intent] (the MissingIntent case: the field
    is absent, or its value is one the library gives no string form) by the
    one error line "Missing 'intent' field in command."; in both cases that
    line is the only effect: the intent is never compared, no handler runs and
    the engine is not called. These are the only parse failures: an object
    from which the accessor does deliver an intent, be it the text of a number,
    is dispatched, and neither of the two lines is logged. *)
Theorem C4_parse_failures_only_log (JsonString : FString) (w : World) :
  (Deserialize JsonString = None ->
   HandleCommand JsonString w =
     MkWorld (os w) (host w)
       (trace w ++ [EvLog Error "Failed to parse JSON command: %s" [ArgS JsonString]]))
  /\
  (forall JsonObject,
     Deserialize JsonString = Some JsonObject ->
     TryGetStringField JsonObject "intent" = None ->
     HandleCommand JsonString w =
       MkWorld (os w) (host w)
         (trace w ++ [EvLog Error "Missing 'intent' field in command." []]))
  /\
  (forall JsonObject Intent,
     Deserialize JsonString = Some JsonObject ->
     TryGetStringField JsonObject "intent" = Some Intent ->
     exists evs,
       trace (HandleCommand JsonString w) = trace w ++ evs /\
       evs <> [] /\
       Forall (fun e => is_parse_error e = false) evs).
Proof.
  split; [|split].
  - intros HD. unfold HandleCommand. now rewrite HD.
  - intros o HD HI. unfold HandleCommand. now rewrite HD, HI.
  - intros o Intent HD HI. unfold HandleCommand. rewrite HD, HI.
    unfold call_FindObject, call_GetWorld, call_SpawnActor, UE_LOG, emit.
    repeat match goal with
           | |- context [SpawnActor ?a ?b ?c ?d ?e] => destruct (SpawnActor a b c d e) eqn:?
           | |- context [match ?x with _ => _ end] => destruct x eqn:?
           end;
      simplify_eq/=; rewrite <- ?(assoc_L (++)); eexists;
      (split; [reflexivity|]); (split; [discriminate|]); repeat constructor.
Qed.

(** C5. A command whose intent is not [spawn_actor], the only intent the
    dispatcher knows, is answered by the one warning line "Unknown intent:
    <intent>", and nothing else happens: no class is resolved, nothing is
    spawned, the engine and the sockets are as before. *)
Theorem C5_unknown_intent_only_warns (JsonString : FString) (w : World)
    (JsonObject : FJsonObject) (Intent : FString) :
  Deserialize JsonString = Some JsonObject ->
  TryGetStringField JsonObject "intent" = Some Intent ->
  FString_eq Intent "spawn_actor" = false ->
  HandleCommand JsonString w =
    MkWorld (os w) (host w)
      (trace w ++ [EvLog Warning "Unknown intent: %s" [ArgS Intent]]).
Proof.
  intros HD HI HE. unfold HandleCommand. now rewrite HD, HI, HE.
Qed.

(** C3 (amended). For a [spawn_actor] command with a class name that
    [FindObject] resolves and a location of three numbers: when the first
    world context has a world, [HandleCommand] calls [SpawnActor] exactly once,
    with the resolved class, the position [(location[0], location[1],
    location[2])] as [AsNumber] gives the three numbers, and
    [FRotator::ZeroRotator]; the engine is left as that call leaves it, and
    when the call returns null the last line logged is the error "Failed to
    spawn actor of class: <class>". When the first world context has no world,
    [SpawnActor] is not called, the engine is left as it was and the line
    logged is the error "Could not get world context.". *)
Theorem C3_spawn_once_at_location (JsonString ClassName : FString)
    (L0 L1 L2 : FJsonValue) (ActorClass : UClass) (w : World) :
  spawn_request JsonString ClassName L0 L1 L2 ->
  Forall (fun v => JsonType v = EJson_Number) [L0; L1; L2] ->
  FindObject ClassName (host w) = Some ActorClass ->
  let Location := MkFVector (AsNumber L0) (AsNumber L1) (AsNumber L2) in
  match GetWorld (host w) with
  | Some Wd =>
      let r := SpawnActor Wd ActorClass Location ZeroRotator (host w) in
      let outcome :=
        match r.1 with
        | Some NewActor =>
            EvLog Log "Successfully spawned actor: %s" [ArgS (GetName NewActor)]
        | None =>
            EvLog Error "Failed to spawn actor of class: %s" [ArgS ClassName]
        end in
      let evs :=
        [EvFindObject ClassName; EvGetWorld;
         EvSpawnActor ActorClass Location ZeroRotator; outcome] in
      HandleCommand JsonString w = MkWorld (os w) r.2 (trace w ++ evs) /\
      spawned evs = [(ActorClass, Location, ZeroRotator)]
  | None =>
      let evs :=
        [EvFindObject ClassName; EvGetWorld;
         EvLog Error "Could not get world context." []] in
      HandleCommand JsonString w = MkWorld (os w) (host w) (trace w ++ evs) /\
      spawned evs = []
  end.
Proof.
  intros H _ HF Location.
  rewrite (HandleCommand_spawn_request _ _ _ _ _ _ H).
  unfold call_FindObject, call_GetWorld, call_SpawnActor, UE_LOG, emit. cbn zeta.
  rewrite HF. cbn [host os trace]. fold Location.
  destruct (GetWorld (host w)) as [Wd|].
  - destruct (SpawnActor Wd ActorClass Location ZeroRotator (host w)) as [[a|] h];
      cbn [fst snd host os trace]; rewrite <- !(assoc_L (++)); split; reflexivity.
  - cbn [fst snd host os trace]. rewrite <- !(assoc_L (++)). split; reflexivity.
Qed.

End CommandProperties.

(** *** Command handling on the sample messages *)

Section CommandRuns.

Local Existing Instance Ref.strings_ops.
Local Existing Instance Ref.json.
Local Existing Instance Ref.engine.

(** Shows [spawn_request] for a document the reference reader accepts: the
    object and its parameters are read off the document itself. *)
Ltac read_spawn_request s :=
  exists (Sample.object_of s), "spawn_actor"%string,
    (Sample.parameters_of (Sample.object_of s));
  vm_compute; repeat split.

(** Witness of C4: free text and a document that is an array are malformed;
    an object without [intent] and one whose [intent] is null miss their
    intent; the message of scenario B is dispatched. *)
Lemma C4_witness :
  let w := Sample.world Sample.quiet (Sample.editor true) in
  trace (HandleCommand Sample.garbage w) =
    [EvLog Error "Failed to parse JSON command: %s" [ArgS Sample.garbage]] /\
  trace (HandleCommand Sample.an_array w) =
    [EvLog Error "Failed to parse JSON command: %s" [ArgS Sample.an_array]] /\
  trace (HandleCommand Sample.no_intent w) =
    [EvLog Error "Missing 'intent' field in command." []] /\
  trace (HandleCommand Sample.intent_null w) =
    [EvLog Error "Missing 'intent' field in command." []] /\
  exists evs,
    trace (HandleCommand Sample.noop w) = trace w ++ evs /\
    evs <> [] /\
    Forall (fun e => is_parse_error e = false) evs.
Proof.
  intros w. split; [|split; [|split; [|split]]].
  - rewrite (proj1 (C4_parse_failures_only_log Sample.garbage w)); reflexivity.
  - rewrite (proj1 (C4_parse_failures_only_log Sample.an_array w)); reflexivity.
  - rewrite (proj1 (proj2 (C4_parse_failures_only_log Sample.no_intent w))
               (Sample.object_of Sample.no_intent));
      vm_compute; reflexivity.
  - rewrite (proj1 (proj2 (C4_parse_failures_only_log Sample.intent_null w))
               (Sample.object_of Sample.intent_null));
      vm_compute; reflexivity.
  - apply (proj2 (proj2 (C4_parse_failures_only_log Sample.noop w))
             (Sample.object_of Sample.noop) "noop"%string);
      vm_compute; reflexivity.
Defined.

(** Counterexample to C4 as stated: the document is an object and its
    [intent] is the number 5, so it has no string-valued [intent]; yet the
    answer is not the MissingIntent line: the accessor delivers the text of the
    number, and the command is dispatched as the intent "5", which is
    unknown. *)
Lemma C4_counterexample :
  let w := Sample.world Sample.quiet (Sample.editor true) in
  exists JsonObject v,
    Deserialize Sample.intent_five = Some JsonObject /\
    Ref.field "intent" JsonObject = Some v /\
    JsonType v = EJson_Number /\
    HandleCommand Sample.intent_five w =
      MkWorld (os w) (host w) [EvLog Warning "Unknown intent: %s" [ArgS "5"]].
Proof.
  intros w. exists (Sample.object_of Sample.intent_five), (Ref.JNumber 5).
  vm_compute. repeat split.
Qed.

(** Witness of C5: scenario B, the intent [noop]. *)
Lemma C5_witness :
  let w := Sample.world Sample.quiet (Sample.editor true) in
  HandleCommand Sample.noop w =
    MkWorld (os w) (host w) [EvLog Warning "Unknown intent: %s" [ArgS "noop"]].
Proof.
  intros w.
  apply (C5_unknown_intent_only_warns Sample.noop w
           (Sample.object_of Sample.noop) "noop");
    vm_compute; reflexivity.
Defined.

(** Witness of C3: scenario A, a box at (1, 2, 3), in an editor with a
    world and in one without. *)
Lemma C3_witness :
  let w := Sample.world Sample.quiet (Sample.editor true) in
  let w' := Sample.world Sample.quiet (Sample.editor false) in
  trace (HandleCommand Sample.spawn_box w) =
    [EvFindObject "Box"; EvGetWorld;
     EvSpawnActor ("Box" : UClass) (MkFVector 1 2 3) ZeroRotator;
     EvLog Log "Successfully spawned actor: %s" [ArgS "Box_0"]] /\
  trace (HandleCommand Sample.spawn_box w') =
    [EvFindObject "Box"; EvGetWorld; EvLog Error "Could not get world context." []].
Proof.
  intros w w'. split.
  - pose proof (@C3_spawn_once_at_location Ref.strings_ops Ref.json Ref.engine
                  Sample.spawn_box "Box"
                  (Ref.JNumber 1) (Ref.JNumber 2) (Ref.JNumber 3)
                  "Box"%string w) as H.
    destruct H as [H _].
    + read_spawn_request Sample.spawn_box.
    + repeat constructor.
    + reflexivity.
    + rewrite H. reflexivity.
  - pose proof (@C3_spawn_once_at_location Ref.strings_ops Ref.json Ref.engine
                  Sample.spawn_box "Box"
                  (Ref.JNumber 1) (Ref.JNumber 2) (Ref.JNumber 3)
                  "Box"%string w') as H.
    destruct H as [H _].
    + read_spawn_request Sample.spawn_box.
    + repeat constructor.
    + reflexivity.
    + rewrite H. reflexivity.
Defined.

(** Counterexample to C3 as stated: the location has three numbers and
    [FindObject] resolves [Box], yet [SpawnActor] is not called, because the
    first world context has no world. *)
Lemma C3_counterexample :
  let w := Sample.world Sample.quiet (Sample.editor false) in
  @spawn_request Ref.strings_ops Ref.json Sample.spawn_box "Box"
    (Ref.JNumber 1) (Ref.JNumber 2) (Ref.JNumber 3) /\
  FindObject "Box" (host w) = Some ("Box" : UClass) /\
  spawned (trace (HandleCommand Sample.spawn_box w)) = [] /\
  trace (HandleCommand Sample.spawn_box w) =
    [EvFindObject "Box"; EvGetWorld; EvLog Error "Could not get world context." []].
Proof.
  intros w. split; [read_spawn_request Sample.spawn_box|].
  vm_compute. repeat split.
Qed.

(** C1, at a failing input. The location ["a", true, null] has three
    elements and none is a number; [HandleCommand] does not refuse it: it
    resolves the class and spawns the actor, at the position [AsNumber] makes
    of the three values. *)
Theorem C1_nonnumeric_location_is_spawned :
  let w := Sample.world Sample.quiet (Sample.editor true) in
  let L : list (@FJsonValue Ref.json) :=
    [Ref.JString "a"; Ref.JBool true; Ref.JNull] in
  (exists JsonObject ParametersObject,
     Deserialize Sample.spawn_box_at_words = Some JsonObject /\
     TryGetStringField JsonObject "intent" = Some "spawn_actor"%string /\
     TryGetObjectField JsonObject "parameters" = Some ParametersObject /\
     TryGetArrayField ParametersObject "location" = Some L) /\
  Forall (fun v => JsonType v <> EJson_Number) L /\
  resolved (trace (HandleCommand Sample.spawn_box_at_words w)) = ["Box"%string] /\
  spawned (trace (HandleCommand Sample.spawn_box_at_words w)) =
    [("Box" : UClass, MkFVector (@AsNumber Ref.json (Ref.JString "a"))
                                (@AsNumber Ref.json (Ref.JBool true))
                                (@AsNumber Ref.json Ref.JNull), ZeroRotator)].
Proof.
  intros w L. split; [|split; [|split]].
  - exists (Sample.object_of Sample.spawn_box_at_words),
      (Sample.parameters_of (Sample.object_of Sample.spawn_box_at_words)).
    vm_compute. repeat split.
  - repeat constructor; discriminate.
  - vm_compute. reflexivity.
  - vm_compute. reflexivity.
Qed.

End CommandRuns.

(** ** Properties of connection handling *)

Section ConnectionProperties.

Context {strings_ops : FStringOps} {json : JsonLibrary} {engine : Engine}.

Implicit Types (w : World) (evs : list Event) (this : UEMCPTCPServer)
  (c l : FSocket) (o : OS).

(** *** Reading traces *)

Lemma closed_app evs1 evs2 : closed (evs1 ++ evs2) = closed evs1 ++ closed evs2.
Proof. apply omap_app. Qed.

Lemma released_app evs1 evs2 :
  released (evs1 ++ evs2) = released evs1 ++ released evs2.
Proof. apply omap_app. Qed.

Lemma polled_app evs1 evs2 : polled (evs1 ++ evs2) = polled evs1 ++ polled evs2.
Proof. apply omap_app. Qed.

Lemma no_lifecycle_reads evs :
  Forall (fun e => is_lifecycle_event e = false) evs ->
  closed evs = [] /\ released evs = [] /\ polled evs = [].
Proof.
  induction 1 as [|e evs He _ (IH1 & IH2 & IH3)]; [done|].
  unfold closed, released, polled in *. cbn [omap list_omap].
  rewrite IH1, IH2, IH3. by destruct e.
Qed.

Lemma socket_free_no_lifecycle evs :
  Forall (fun e => is_socket_event e = false) evs ->
  Forall (fun e => is_lifecycle_event e = false) evs.
Proof. intros H. eapply Forall_impl; [exact H|]. by intros []. Qed.

(** *** The subsystem under the calls *)

Lemma os_kept_except_refl c o : os_kept_except c o o.
Proof. by repeat split. Qed.

Lemma os_kept_except_trans c o1 o2 o3 :
  os_kept_except c o1 o2 -> os_kept_except c o2 o3 -> os_kept_except c o1 o3.
Proof.
  intros (? & ? & ? & ? & ? & Ha) (? & ? & ? & ? & ? & Hb).
  repeat split; try congruence. intros c' Hc. rewrite Hb, Ha; auto.
Qed.

Lemma os_recv_kept c n o : os_kept_except c o (os_recv c n o).2.
Proof.
  unfold os_recv. destruct (sockets o !! c) eqn:E; cbn; repeat split.
  intros c' Hc. cbn. by rewrite lookup_insert_ne by done.
Qed.

Lemma os_recv_conn_state c n o c' :
  conn_state c' (os_recv c n o).2 = conn_state c' o.
Proof.
  unfold os_recv, conn_state. destruct (sockets o !! c) eqn:E; cbn; [|done].
  destruct (decide (c = c')) as [->|Hne].
  - by rewrite lookup_insert_eq, E.
  - by rewrite lookup_insert_ne.
Qed.

Lemma os_recv_pending c n o :
  pending c (os_recv c n o).2 = (pending c o - Z.to_nat n)%nat.
Proof.
  unfold os_recv, pending. destruct (sockets o !! c) eqn:E; cbn.
  - rewrite lookup_insert_eq. cbn. by rewrite length_drop.
  - by rewrite E.
Qed.

Lemma os_destroy_kept c o : os_kept_except c o (os_destroy c o).
Proof.
  unfold os_destroy; repeat split; cbn. intros c' Hc. by rewrite lookup_delete_ne.
Qed.

Lemma conn_state_kept c o o' c' :
  os_kept_except c o o' -> c' <> c -> conn_state c' o' = conn_state c' o.
Proof. intros (_ & _ & _ & _ & _ & H) Hc. unfold conn_state. by rewrite H. Qed.

(** *** The receive loop *)

(** One turn: the read takes [Min(Size, 65507)] bytes off the socket, and
    whatever the command in them does, it does not touch a socket. *)
Lemma receive_spec c Size w :
  os (receive c Size w) = (os_recv c (Z.min Size MaxRead) (os w)).2 /\
  exists evs,
    trace (receive c Size w) = trace w ++ evs /\
    Forall (fun e => is_lifecycle_event e = false) evs.
Proof.
  unfold receive, call_Recv.
  destruct (os_recv c (Z.min Size MaxRead) (os w)) as [d o'] eqn:Hr.
  destruct (0 <? _).
  - set (s := FString_of_chars d).
    destruct (HandleCommand_frame s
                (UE_LOG Log "Received: %s" [ArgS s]
                   (with_os o' (emit (EvRecv c (Z.min Size MaxRead)) w))))
      as (Ho & evs & Ht & Hf).
    split; [by rewrite Ho|].
    exists (EvRecv c (Z.min Size MaxRead) :: EvLog Log "Received: %s" [ArgS s] :: evs).
    split.
    + rewrite Ht. cbn. by rewrite <- !(assoc_L (++)).
    + repeat (constructor; [done|]). by apply socket_free_no_lifecycle.
  - split; [done|]. exists [EvRecv c (Z.min Size MaxRead)].
    split; [done|]. by repeat constructor.
Qed.

Lemma receive_pending c n w :
  pending c (os w) = S n ->
  (pending c (os (receive c (Z.of_nat (S n)) (emit (EvHasPendingData c) w))) <= n)%nat.
Proof.
  intros Hp. rewrite (proj1 (receive_spec _ _ _)), os_recv_pending. cbn [os emit].
  rewrite Hp. unfold MaxRead. lia.
Qed.

Lemma drain_spec tests c w :
  os_kept_except c (os w) (os (drain tests c w)) /\
  (forall c', conn_state c' (os (drain tests c w)) = conn_state c' (os w)) /\
  exists evs,
    trace (drain tests c w) = trace w ++ evs /\
    Forall (fun e => is_lifecycle_event e = false) evs.
Proof.
  revert w. induction tests as [|tests IH]; intros w.
  { cbn. split; [apply os_kept_except_refl|]. split; [done|].
    exists []. by rewrite app_nil_r. }
  cbn [drain]. unfold call_HasPendingData.
  destruct (pending c (os w)) as [|n] eqn:Hp.
  { cbn. split; [apply os_kept_except_refl|]. split; [done|].
    exists [EvHasPendingData c]. split; [done|]. by repeat constructor. }
  set (w1 := emit (EvHasPendingData c) w).
  destruct (receive_spec c (Z.of_nat (S n)) w1) as (Ho & evs1 & Ht1 & Hf1).
  destruct (IH (receive c (Z.of_nat (S n)) w1)) as (Hk & Hc & evs & Ht & Hf).
  split; [|split].
  - eapply os_kept_except_trans; [|exact Hk]. rewrite Ho. apply os_recv_kept.
  - intros c'. rewrite Hc, Ho. apply os_recv_conn_state.
  - exists (EvHasPendingData c :: evs1 ++ evs). split.
    + rewrite Ht, Ht1. subst w1. cbn. by rewrite <- !(assoc_L (++)).
    + constructor; [done|]. by apply Forall_app.
Qed.

(** The loop leaves through its condition: with more tests allowed than
    bytes pending, nothing is pending at the end. *)
Lemma drain_exits tests c w :
  (pending c (os w) < tests)%nat -> pending c (os (drain tests c w)) = 0%nat.
Proof.
  revert w. induction tests as [|tests IH]; intros w Hlt; [lia|].
  cbn [drain]. unfold call_HasPendingData.
  destruct (pending c (os w)) as [|n] eqn:Hp; [done|].
  apply IH. pose proof (receive_pending c n w Hp). lia.
Qed.

(** The bound plays no part once it exceeds the bytes pending. *)
Lemma drain_bound_irrelevant t1 t2 c w :
  (pending c (os w) < t1)%nat -> (pending c (os w) < t2)%nat ->
  drain t1 c w = drain t2 c w.
Proof.
  revert t2 w. induction t1 as [|t1 IH]; intros t2 w H1 H2; [lia|].
  destruct t2 as [|t2]; [lia|].
  cbn [drain]. unfold call_HasPendingData.
  destruct (pending c (os w)) as [|n] eqn:Hp; [done|].
  pose proof (receive_pending c n w Hp). apply IH; lia.
Qed.

(** *** [HandleData] *)

Lemma HandleData_spec c this w :
  let connected := is_connected (conn_state c (os w)) in
  let this' := (HandleData c this w).1 in
  let w' := (HandleData c this w).2 in
  ListenSocket this' = ListenSocket this /\
  bIsServerRunning this' = bIsServerRunning this /\
  ConnectedSockets this' =
    (if connected then ConnectedSockets this
     else TArray_Remove c (ConnectedSockets this)) /\
  os_kept_except c (os w) (os w') /\
  exists evs,
    trace w' = trace w ++ evs /\
    closed evs = [] /\
    polled evs = [c] /\
    released evs = (if connected then [] else [c]).
Proof.
  intros connected this' w'. subst this' w'. unfold HandleData, call_GetConnectionState.
  set (w1 := drain _ c w).
  destruct (drain_spec (S (pending c (os w))) c w) as (Hk & Hc & evs & Ht & Hf).
  fold w1 in Hk, Hc, Ht.
  destruct (no_lifecycle_reads _ Hf) as (Hcl & Hde & Hpo).
  cbn [os emit]. rewrite Hc. fold connected.
  destruct connected; cbn [fst snd].
  - do 3 (split; [done|]). split; [exact Hk|].
    exists (evs ++ [EvGetConnectionState c]). cbn [trace emit].
    rewrite Ht, closed_app, polled_app, released_app, Hcl, Hde, Hpo.
    by rewrite <- (assoc_L (++)).
  - do 3 (split; [done|]). split.
    + eapply os_kept_except_trans; [exact Hk|]. apply os_destroy_kept.
    + exists (evs ++ [EvGetConnectionState c; EvLog Log "Client disconnected." [];
                      EvDestroySocket c]).
      unfold call_DestroySocket, UE_LOG. cbn [trace emit with_os].
      rewrite Ht, closed_app, polled_app, released_app, Hcl, Hde, Hpo.
      by rewrite <- !(assoc_L (++)).
Qed.

(** *** [HandleNewConnection] *)

Lemma HandleNewConnection_spec this w l :
  ListenSocket this = Some l ->
  exists w1 evs,
    HandleNewConnection this w =
      Some (MkServer (ListenSocket this)
                     (ConnectedSockets this ++ accepted (os w))
                     (bIsServerRunning this), w1) /\
    trace w1 = trace w ++ EvHasPendingConnection l :: evs /\
    Forall (fun e => is_lifecycle_event e = false) evs /\
    host w1 = host w /\
    (next (os w) <= next (os w1))%nat /\
    Forall (fun c => (c < next (os w1))%nat) (accepted (os w)) /\
    (forall c, (c < next (os w))%nat -> sockets (os w1) !! c = sockets (os w) !! c).
Proof.
  intros Hl. unfold HandleNewConnection, call_HasPendingConnection, call_Accept, accepted.
  rewrite Hl. cbn [emit os]. unfold os_accept.
  destruct this as [ls cs r]. cbn [ListenSocket ConnectedSockets bIsServerRunning] in *.
  subst ls.
  destruct (can_query (os w)),
    (backlog (os w)) as [|[p|] rest] eqn:Hb; cbn [andb];
    rewrite ?app_nil_r; do 2 eexists; (split; [reflexivity|]);
    unfold UE_LOG; cbn [trace os host emit with_os next sockets];
    rewrite <- ?(assoc_L (++)); (split; [reflexivity|]);
    repeat split; try done; try (by repeat constructor); try lia.
  intros c Hc. rewrite lookup_insert_ne; [done|lia].
Qed.

(** *** The loop of [Tick_Internal] *)

Lemma TArray_Remove_notin c (a : list FSocket) : c ∉ a -> TArray_Remove c a = a.
Proof.
  unfold TArray_Remove. induction a as [|x a IH]; [done|].
  intros Hn. apply not_elem_of_cons in Hn as [Hx Ha].
  rewrite filter_cons_True by done. by rewrite IH.
Qed.

Lemma TArray_Remove_middle c (q rest : list FSocket) :
  NoDup ((q ++ [c]) ++ rest) -> TArray_Remove c ((q ++ [c]) ++ rest) = q ++ rest.
Proof.
  intros Hnd. rewrite <- (assoc_L (++)) in Hnd.
  apply NoDup_app in Hnd as (_ & Hq & Hcr).
  apply NoDup_cons in Hcr as [Hc _].
  assert (Hcq : c ∉ q) by (intros Hin; apply (Hq c Hin); set_solver).
  pose proof (TArray_Remove_notin c q Hcq) as E1.
  pose proof (TArray_Remove_notin c rest Hc) as E2.
  unfold TArray_Remove in *. rewrite !filter_app, E1, E2.
  rewrite filter_cons_False by (intros H; by apply H).
  by rewrite filter_nil, app_nil_r.
Qed.

Lemma still_connected_ext o o' (a : list FSocket) :
  (forall c, c ∈ a -> conn_state c o' = conn_state c o) ->
  still_connected o' a = still_connected o a /\ disconnected o' a = disconnected o a.
Proof.
  unfold still_connected, disconnected. induction a as [|x a IH]; [done|].
  intros H. destruct IH as [IH1 IH2]; [intros c Hc; apply H; set_solver|].
  rewrite !filter_cons, IH1, IH2, (H x) by set_solver. done.
Qed.

Lemma Tick_loop_spec (p : list FSocket) :
  forall rest this w,
    ConnectedSockets this = p ++ rest ->
    NoDup (p ++ rest) ->
    exists this' w' evs,
      Tick_loop (length p) this w = Some (this', w') /\
      (this', w') = foldl poll (this, w) (rev p) /\
      ListenSocket this' = ListenSocket this /\
      bIsServerRunning this' = bIsServerRunning this /\
      ConnectedSockets this' = still_connected (os w) p ++ rest /\
      trace w' = trace w ++ evs /\
      closed evs = [] /\
      polled evs = rev p /\
      released evs = rev (disconnected (os w) p) /\
      next (os w') = next (os w) /\
      backlog (os w') = backlog (os w) /\
      (forall c, c ∉ p -> sockets (os w') !! c = sockets (os w) !! c).
Proof.
  induction p as [|c q IH] using rev_ind; intros rest this w Hcs Hnd.
  { exists this, w, []. cbn. rewrite app_nil_r. by repeat split. }
  rewrite length_app, Nat.add_1_r. cbn [Tick_loop length].
  assert (Hlk : ConnectedSockets this !! length q = Some c).
  { rewrite Hcs, <- (assoc_L (++)). by apply (list_lookup_middle q rest c). }
  rewrite Hlk.
  pose proof (HandleData_spec c this w) as Hd. cbn zeta in Hd.
  destruct (HandleData c this w) as [this1 w1] eqn:Hhd. cbn [fst snd] in Hd.
  destruct Hd as (Hl1 & Hr1 & Hc1 & Hk1 & evs1 & Ht1 & Hcl1 & Hpo1 & Hde1).
  assert (Hcq : c ∉ q).
  { rewrite <- (assoc_L (++)) in Hnd. apply NoDup_app in Hnd as (_ & Hq & _).
    intros Hin. apply (Hq c Hin). set_solver. }
  assert (Hconn : forall c', c' ∈ q -> conn_state c' (os w1) = conn_state c' (os w)).
  { intros c' Hin. eapply conn_state_kept; [exact Hk1|]. intros ->. done. }
  destruct (still_connected_ext (os w) (os w1) q Hconn) as [Hs Hdq].
  set (rest1 := if is_connected (conn_state c (os w)) then c :: rest else rest).
  assert (Hcs1 : ConnectedSockets this1 = q ++ rest1).
  { rewrite Hc1, Hcs. subst rest1. destruct (is_connected _).
    - by rewrite <- (assoc_L (++)).
    - by apply TArray_Remove_middle. }
  assert (Hnd1 : NoDup (q ++ rest1)).
  { subst rest1. rewrite <- (assoc_L (++)) in Hnd. destruct (is_connected _); [done|].
    apply NoDup_app in Hnd as (Hq & Hdisj & Hcr). apply NoDup_cons in Hcr as [_ Hr].
    apply NoDup_app. repeat split; [done| |done].
    intros x Hx Hxr. apply (Hdisj x Hx). set_solver. }
  destruct (IH rest1 this1 w1 Hcs1 Hnd1)
    as (this' & w' & evs & Hloop & Hfold & Hl & Hr & Hc & Ht & Hcl & Hpo & Hde & Hn & Hb & Hso).
  destruct Hk1 as (_ & _ & _ & Hb1 & Hn1 & Hso1).
  exists this', w', (evs1 ++ evs). split; [done|].
  split.
  { assert (Hp : poll (this, w) c = (this1, w1)) by exact Hhd.
    rewrite rev_app_distr. change (rev [c]) with [c].
    cbn [app foldl]. by rewrite Hp. }
  split; [congruence|]. split; [congruence|].
  split.
  { rewrite Hc, Hs. unfold still_connected, disconnected. rewrite filter_app.
    rewrite <- (assoc_L (++)). f_equal. subst rest1.
    rewrite filter_cons, filter_nil.
    destruct (is_connected (conn_state c (os w))); case_decide; done. }
  split; [by rewrite Ht, Ht1, <- (assoc_L (++))|].
  split; [by rewrite closed_app, Hcl1, Hcl|].
  split; [by rewrite polled_app, Hpo1, Hpo, rev_app_distr|].
  split.
  { rewrite released_app, Hde1, Hde, Hdq. unfold disconnected. rewrite filter_app.
    rewrite rev_app_distr. f_equal. rewrite filter_cons, filter_nil.
    destruct (is_connected (conn_state c (os w))); case_decide; done. }
  split; [congruence|]. split; [congruence|].
  intros c' Hc'. apply not_elem_of_app in Hc' as [Hq' Hc'].
  rewrite Hso by done. apply Hso1. set_solver.
Qed.

End ConnectionProperties.

(** ** Properties of a tick *)

Section TickProperties.

Context {strings_ops : FStringOps} {json : JsonLibrary} {engine : Engine}.

Implicit Types (w : World) (evs : list Event) (this : UEMCPTCPServer)
  (c l : FSocket) (o : OS).

Lemma server_eq this this' :
  ListenSocket this' = ListenSocket this ->
  ConnectedSockets this' = ConnectedSockets this ->
  bIsServerRunning this' = bIsServerRunning this ->
  this' = this.
Proof. destruct this, this'; cbn; congruence. Qed.

(** With handles the subsystem issued, the socket [Accept] adds is new. *)
Lemma NoDup_after_accept o (a : list FSocket) :
  NoDup a -> Forall (fun c => (c < next o)%nat) a -> NoDup (a ++ accepted o).
Proof.
  intros Hnd Hlt. unfold accepted.
  destruct (can_query o), (backlog o) as [|[p|] rest]; rewrite ?app_nil_r; try done.
  apply NoDup_app. repeat split; [done| |apply NoDup_singleton].
  intros x Hx Hx'. apply list_elem_of_singleton in Hx'. subst x.
  rewrite Forall_forall in Hlt. specialize (Hlt _ Hx). lia.
Qed.

Lemma filter_eq_notin c (a : list FSocket) :
  c ∉ a -> filter (fun s => s = c) a = [].
Proof.
  induction a as [|x a IH]; [done|]. intros [Hx Ha]%not_elem_of_cons.
  rewrite filter_cons_False by (intros ->; done). by apply IH.
Qed.

Lemma NoDup_count_one c (a : list FSocket) :
  NoDup a -> c ∈ a -> length (filter (fun s => s = c) a) = 1%nat.
Proof.
  induction 1 as [|x a Hx Hnd IH]; [by intros ?%elem_of_nil|].
  intros [->|Hin]%elem_of_cons.
  - rewrite filter_cons_True by done. by rewrite filter_eq_notin.
  - rewrite filter_cons_False by (intros ->; done). by apply IH.
Qed.

Lemma connected_partition o (a : list FSocket) :
  (length (still_connected o a) + length (disconnected o a) = length a)%nat.
Proof.
  unfold still_connected, disconnected. induction a as [|x a IH]; [done|].
  rewrite !filter_cons.
  destruct (is_connected (conn_state x o)); repeat case_decide; try done; cbn; lia.
Qed.

(** What one [Tick_Internal] of a running server does: the accept step,
    then [HandleData] on every connection of the list the accept step left,
    from its last element to its first. *)
Lemma Tick_Internal_spec this w l :
  bIsServerRunning this = true ->
  ListenSocket this = Some l ->
  NoDup (ConnectedSockets this) ->
  Forall (fun c => (c < next (os w))%nat) (ConnectedSockets this) ->
  let conns1 := ConnectedSockets this ++ accepted (os w) in
  let this1 := MkServer (ListenSocket this) conns1 (bIsServerRunning this) in
  exists w1 evs1 this' w' evs2,
    HandleNewConnection this w = Some (this1, w1) /\
    trace w1 = trace w ++ EvHasPendingConnection l :: evs1 /\
    Forall (fun e => is_lifecycle_event e = false) evs1 /\
    (forall c, c ∈ ConnectedSockets this -> conn_state c (os w1) = conn_state c (os w)) /\
    Tick_Internal this w = Some (this', w') /\
    (this', w') = foldl poll (this1, w1) (rev conns1) /\
    ListenSocket this' = ListenSocket this /\
    bIsServerRunning this' = bIsServerRunning this /\
    ConnectedSockets this' = still_connected (os w1) conns1 /\
    trace w' = trace w1 ++ evs2 /\
    closed evs2 = [] /\
    polled evs2 = rev conns1 /\
    released evs2 = rev (disconnected (os w1) conns1) /\
    (next (os w) <= next (os w'))%nat /\
    Forall (fun c => (c < next (os w'))%nat) conns1.
Proof.
  intros Hrun Hl Hnd Hlt conns1 this1.
  destruct (HandleNewConnection_spec this w l Hl)
    as (w1 & evs1 & Hacc & Ht1 & Hf1 & _ & Hn1 & Hlt1 & Hso1).
  fold conns1 in Hacc. fold this1 in Hacc.
  assert (Hnd1 : NoDup (conns1 ++ [])).
  { rewrite app_nil_r. by apply NoDup_after_accept. }
  destruct (Tick_loop_spec conns1 [] this1 w1)
    as (this' & w' & evs2 & Hloop & Hfold & Hl' & Hr' & Hc' & Ht' & Hcl & Hpo & Hde & Hn' & _);
    [by rewrite app_nil_r|done|].
  rewrite app_nil_r in Hc'.
  exists w1, evs1, this', w', evs2.
  split; [done|]. split; [done|]. split; [done|].
  split.
  { intros c Hc. unfold conn_state. rewrite Hso1; [done|].
    rewrite Forall_forall in Hlt. by apply Hlt. }
  split.
  { unfold Tick_Internal. rewrite Hrun. cbn [negb]. by rewrite Hacc. }
  do 8 (split; [done|]). split; [lia|].
  rewrite Hn'. apply Forall_app. split; [|done].
  eapply Forall_impl; [exact Hlt|]. intros c Hc. cbn in Hc. lia.
Qed.

(** The handles of a consistent server. *)
Lemma consistent_handles this w :
  consistent this w ->
  NoDup (ConnectedSockets this) /\
  Forall (fun c => (c < next (os w))%nat) (ConnectedSockets this).
Proof.
  intros (_ & Hnd & Hlt). unfold owned in *.
  apply NoDup_app in Hnd as (? & _ & _). apply Forall_app in Hlt as [? _]. done.
Qed.

Lemma consistent_listening this w :
  consistent this w -> bIsServerRunning this = true ->
  exists l, ListenSocket this = Some l.
Proof. intros (H & _) Hrun. exact (H Hrun). Qed.

(** C2 (amended). A tick of a running server makes its accept attempt
    first and then calls [HandleData] once on every connection of the list as
    the accept left it, starting with the last element of the list (the
    connection accepted in this very tick, if any) and ending with the first:
    the reverse of the list order. The server is any one that is consistent
    with the subsystem, as every reachable one is ([reachable_in_consistent]). *)
Theorem C2_tick_accepts_then_polls_backwards this w :
  consistent this w ->
  bIsServerRunning this = true ->
  exists l this1 w1 evs1 evs2,
    ListenSocket this = Some l /\
    HandleNewConnection this w = Some (this1, w1) /\
    ConnectedSockets this1 = ConnectedSockets this ++ accepted (os w) /\
    Tick_Internal this w = Some (foldl poll (this1, w1) (rev (ConnectedSockets this1))) /\
    trace (foldl poll (this1, w1) (rev (ConnectedSockets this1))).2 =
      trace w ++ EvHasPendingConnection l :: evs1 ++ evs2 /\
    polled evs1 = [] /\
    polled evs2 = rev (ConnectedSockets this1).
Proof.
  intros Hcons Hrun.
  destruct (consistent_listening this w Hcons Hrun) as [l Hl].
  destruct (consistent_handles this w Hcons) as [Hnd Hlt].
  destruct (Tick_Internal_spec this w l Hrun Hl Hnd Hlt)
    as (w1 & evs1 & this' & w' & evs2 & Hacc & Ht1 & Hf1 & _ & Htick & Hfold
        & _ & _ & _ & Ht' & _ & Hpo & _).
  eexists l, _, w1, evs1, evs2. split; [done|]. split; [exact Hacc|].
  cbn [ConnectedSockets].
  split; [done|]. rewrite <- Hfold. split; [done|]. cbn [snd].
  split; [by rewrite Ht', Ht1, <- (assoc_L (++))|].
  split; [|done]. by destruct (no_lifecycle_reads _ Hf1) as (_ & _ & ?).
Qed.

(** C8. A connection of the list whose state is not [SCS_Connected] when
    the tick starts is gone from the list after the tick, and the tick
    releases its socket ([DestroySocket], the call that frees the handle)
    exactly once, with no other call that closes a socket. Nothing else leaves
    the list: the list after the tick is the list the tick polled (the old
    list and, at its end, the connection accepted in this tick, if any) without
    the connections whose state was not [SCS_Connected]; every connection in
    state [SCS_Connected] stays, at its place, and the sockets released are
    the disconnected ones, each once, in the order they were polled. So the
    list is shorter than the list polled by exactly the number of connections
    found disconnected. The server is any running one that is consistent with
    the subsystem, as every reachable one is ([reachable_in_consistent]). *)
Theorem C8_tick_removes_disconnected_once this w c :
  consistent this w ->
  bIsServerRunning this = true ->
  c ∈ ConnectedSockets this ->
  conn_state c (os w) <> SCS_Connected ->
  exists this' w' evs this1 w1,
    Tick_Internal this w = Some (this', w') /\
    trace w' = trace w ++ evs /\
    (c ∉ ConnectedSockets this') /\
    length (filter (fun s => s = c) (released evs)) = 1%nat /\
    closed evs = [] /\
    (length (ConnectedSockets this') + length (released evs) =
     length (ConnectedSockets this ++ accepted (os w)))%nat /\
    HandleNewConnection this w = Some (this1, w1) /\
    ConnectedSockets this1 = ConnectedSockets this ++ accepted (os w) /\
    (forall s, s ∈ ConnectedSockets this ->
               conn_state s (os w1) = conn_state s (os w)) /\
    ConnectedSockets this' =
      filter (fun s => conn_state s (os w1) = SCS_Connected) (ConnectedSockets this1) /\
    released evs =
      rev (filter (fun s => conn_state s (os w1) <> SCS_Connected) (ConnectedSockets this1)) /\
    (forall s, s ∈ ConnectedSockets this -> conn_state s (os w) = SCS_Connected ->
               s ∈ ConnectedSockets this' /\ s ∉ released evs).
Proof.
  intros Hcons Hrun Hin Hdis.
  destruct (consistent_listening this w Hcons Hrun) as [l Hl].
  destruct (consistent_handles this w Hcons) as [Hnd Hlt].
  destruct (Tick_Internal_spec this w l Hrun Hl Hnd Hlt)
    as (w1 & evs1 & this' & w' & evs2 & Hacc & Ht1 & Hf1 & Hcs & Htick & _
        & _ & _ & Hc' & Ht' & Hcl & _ & Hde & _).
  destruct (no_lifecycle_reads _ Hf1) as (Hcl1 & Hde1 & _).
  set (conns1 := ConnectedSockets this ++ accepted (os w)) in *.
  assert (Hdis1 : is_connected (conn_state c (os w1)) = false).
  { rewrite (Hcs c Hin). by destruct (conn_state c (os w)). }
  assert (Hnd1 : NoDup conns1) by by apply NoDup_after_accept.
  assert (Hin1 : c ∈ conns1) by (apply elem_of_app; by left).
  assert (Hstay : still_connected (os w1) conns1
                  = filter (fun s => conn_state s (os w1) = SCS_Connected) conns1).
  { unfold still_connected. apply list_filter_iff. intros s.
    by destruct (conn_state s (os w1)). }
  assert (Hgone : disconnected (os w1) conns1
                  = filter (fun s => conn_state s (os w1) <> SCS_Connected) conns1).
  { unfold disconnected. apply list_filter_iff. intros s.
    by destruct (conn_state s (os w1)). }
  exists this', w', (EvHasPendingConnection l :: evs1 ++ evs2),
    (MkServer (ListenSocket this) conns1 (bIsServerRunning this)), w1.
  split; [done|].
  split; [by rewrite Ht', Ht1, <- (assoc_L (++))|].
  assert (Hd : released (EvHasPendingConnection l :: evs1 ++ evs2)
               = rev (disconnected (os w1) conns1)).
  { change (released (EvHasPendingConnection l :: evs1 ++ evs2))
      with (released (evs1 ++ evs2)).
    by rewrite released_app, Hde1, Hde. }
  assert (Hc : closed (EvHasPendingConnection l :: evs1 ++ evs2) = []).
  { change (closed (EvHasPendingConnection l :: evs1 ++ evs2))
      with (closed (evs1 ++ evs2)).
    by rewrite closed_app, Hcl1, Hcl. }
  rewrite Hd, Hc.
  split.
  { rewrite Hc'. unfold still_connected. rewrite list_elem_of_filter.
    intros [Hconn _]. congruence. }
  split.
  { apply (NoDup_count_one c (rev (disconnected (os w1) conns1))).
    - apply NoDup_ListNoDup, NoDup_rev, NoDup_ListNoDup.
      unfold disconnected. by apply NoDup_filter.
    - apply list_elem_of_In, in_rev. rewrite rev_involutive.
      apply list_elem_of_In. unfold disconnected. by apply list_elem_of_filter. }
  split; [done|].
  split; [rewrite Hc', length_rev; apply connected_partition|].
  split; [exact Hacc|]. cbn [ConnectedSockets]. fold conns1.
  split; [done|]. split; [exact Hcs|].
  split; [by rewrite Hc', Hstay|].
  split; [by rewrite Hgone|].
  intros s Hs Hconn.
  assert (Hs1 : conn_state s (os w1) = SCS_Connected) by by rewrite (Hcs s Hs).
  split.
  - rewrite Hc', Hstay. apply list_elem_of_filter. split; [done|].
    apply elem_of_app. by left.
  - rewrite Hgone. intros Hr. apply list_elem_of_In, in_rev, list_elem_of_In in Hr.
    apply list_elem_of_filter in Hr as [Hne _]. done.
Qed.

(** C9. Handling a message never touches a socket, and polling a
    connection whose state is [SCS_Connected] leaves the server object as it
    was, whatever bytes were pending on it and however the commands in them
    fared: the connection list, the listening socket and the running flag are
    unchanged and no socket is closed or released. The list only changes in
    the other case, a connection state other than [SCS_Connected]. *)
Theorem C9_messages_leave_server_unchanged c this w :
  (forall JsonString, os (HandleCommand JsonString w) = os w) /\
  (is_connected (conn_state c (os w)) = true ->
   (HandleData c this w).1 = this /\
   (forall c', conn_state c' (os (HandleData c this w).2) = conn_state c' (os w)) /\
   exists evs,
     trace (HandleData c this w).2 = trace w ++ evs /\
     closed evs = [] /\ released evs = []) /\
  ((HandleData c this w).1 <> this -> is_connected (conn_state c (os w)) = false).
Proof.
  pose proof (HandleData_spec c this w) as H. cbn zeta in H.
  destruct H as (Hl & Hr & Hc & Hk & evs & Ht & Hcl & _ & Hde).
  split; [intros s; apply HandleCommand_os|].
  split.
  - intros Hconn. rewrite Hconn in Hc, Hde.
    split; [by apply server_eq|]. split; [|by exists evs].
    intros c'. unfold HandleData, call_GetConnectionState.
    cbn [os emit]. rewrite (proj1 (proj2 (drain_spec _ _ _))), Hconn. cbn [snd os emit].
    apply (proj1 (proj2 (drain_spec _ _ _))).
  - intros Hne. destruct (is_connected (conn_state c (os w))); [|done].
    exfalso. apply Hne. by apply server_eq.
Qed.

End TickProperties.

(** ** Properties of the lifecycle *)

Section LifecycleProperties.

Context {strings_ops : FStringOps} {json : JsonLibrary} {engine : Engine}.

Implicit Types (w : World) (evs : list Event) (this : UEMCPTCPServer)
  (c l : FSocket) (o : OS) (i : option UEMCPTCPServer).

(** *** [Stop_Internal] *)

Lemma closed_closing (a : list FSocket) : closed (closing a) = a.
Proof. induction a as [|s a IH]; [done|]. cbn. by f_equal. Qed.

Lemma released_closing (a : list FSocket) : released (closing a) = a.
Proof. induction a as [|s a IH]; [done|]. cbn. by f_equal. Qed.

Lemma closing_app (a b : list FSocket) : closing (a ++ b) = closing a ++ closing b.
Proof. apply flat_map_app. Qed.

Lemma close_all_spec (a : list FSocket) w :
  host (close_all a w) = host w /\
  next (os (close_all a w)) = next (os w) /\
  trace (close_all a w) = trace w ++ closing a.
Proof.
  revert w. induction a as [|s a IH]; intros w.
  { cbn. by rewrite app_nil_r. }
  cbn [close_all]. destruct (IH (call_DestroySocket s (call_Close s w))) as (Hh & Hn & Ht).
  rewrite Hh, Hn, Ht. cbn. by rewrite <- !(assoc_L (++)).
Qed.

Lemma Stop_Internal_running this w :
  bIsServerRunning this = true ->
  (Stop_Internal this w).1 = MkServer None [] false /\
  host (Stop_Internal this w).2 = host w /\
  next (os (Stop_Internal this w).2) = next (os w) /\
  trace (Stop_Internal this w).2 =
    trace w ++ closing (owned this) ++ [EvLog Log "UEMCP Server stopped." []].
Proof.
  intros Hrun. unfold Stop_Internal. rewrite Hrun. cbn [negb fst snd].
  destruct (close_all_spec (ConnectedSockets this) w) as (Hh & Hn & Ht).
  unfold owned. rewrite closing_app.
  destruct (ListenSocket this) as [l|]; cbn; rewrite ?Hh, ?Hn, Ht;
    rewrite <- ?(assoc_L (++)); cbn; by rewrite ?app_nil_r.
Qed.

(** C7. [Stop_Internal] on a server that is not running does nothing. On
    a running server it closes and releases every socket of the list, in
    list order, then the listening socket, and leaves a server that is not
    running, with no listening socket and an empty list; a second
    [Stop_Internal] right after makes no call at all. So over both calls each
    entry of the list and the listening socket are closed and released exactly
    once, and no handle twice when the handles are distinct. *)
Theorem C7_stop_twice_closes_once this w :
  (bIsServerRunning this = false -> Stop_Internal this w = (this, w)) /\
  (bIsServerRunning this = true ->
   let this1 := (Stop_Internal this w).1 in
   let w1 := (Stop_Internal this w).2 in
   let evs := closing (owned this) ++ [EvLog Log "UEMCP Server stopped." []] in
   this1 = MkServer None [] false /\
   trace w1 = trace w ++ evs /\
   Stop_Internal this1 w1 = (this1, w1) /\
   closed evs = owned this /\
   released evs = owned this /\
   (NoDup (owned this) -> NoDup (closed evs) /\ NoDup (released evs))).
Proof.
  split.
  - intros Hrun. unfold Stop_Internal. by rewrite Hrun.
  - intros Hrun this1 w1 evs.
    destruct (Stop_Internal_running this w Hrun) as (H1 & _ & _ & Ht).
    fold this1 in H1. fold w1 in Ht.
    assert (Hc : closed evs = owned this).
    { subst evs. unfold closed. rewrite omap_app. fold (closed (closing (owned this))).
      rewrite closed_closing. cbn. by rewrite app_nil_r. }
    assert (Hd : released evs = owned this).
    { subst evs. unfold released. rewrite omap_app.
      fold (released (closing (owned this))).
      rewrite released_closing. cbn. by rewrite app_nil_r. }
    split; [done|]. split; [done|].
    split; [by rewrite H1|].
    split; [done|]. split; [done|].
    intros Hnd. by rewrite Hc, Hd.
Qed.

(** *** [Start_Internal] *)

Lemma Start_Internal_running (Port : Z) this w :
  bIsServerRunning this = true ->
  Start_Internal Port this w =
    (true, this,
     MkWorld (os w) (host w)
       (trace w ++ [EvLog Warning "UEMCP Server already running." []])).
Proof. intros Hrun. unfold Start_Internal. by rewrite Hrun. Qed.

(** C6. [Start_Internal] on a server that is already running returns true
    and does nothing but log a warning: no socket is built, bound or put to
    listening, and the server object (its one listening socket, its connection
    list, its flag) is the same afterwards. The static [Start] on the
    singleton does the same. *)
Theorem C6_start_when_running_is_noop (Port : Z) this w :
  bIsServerRunning this = true ->
  let w' :=
    MkWorld (os w) (host w)
      (trace w ++ [EvLog Warning "UEMCP Server already running." []]) in
  Start_Internal Port this w = (true, this, w') /\
  Start Port (Some this) w = (true, Some this, w').
Proof.
  intros Hrun w'. unfold Start. cbn [Get].
  by rewrite (Start_Internal_running Port this w Hrun).
Qed.

(** A [Start_Internal] that returns true leaves a running server. *)
Lemma Start_Internal_true (Port : Z) this w :
  (Start_Internal Port this w).1.1 = true ->
  bIsServerRunning (Start_Internal Port this w).1.2 = true.
Proof.
  unfold Start_Internal, call_Listening.
  destruct (bIsServerRunning this) eqn:Hrun; [done|].
  destruct (negb (subsystem (os w))); [done|].
  destruct (os_listen Port (os w)) as [[s|] o]; done.
Qed.

(** [Start] twice in a row: when the first call returns true, the second,
    on any port and in any later world, returns true as well and changes
    nothing; there is still the one listening socket of the first call. *)
Lemma Start_twice_in_a_row (Port Port' : Z) this w w' :
  (Start_Internal Port this w).1.1 = true ->
  let this1 := (Start_Internal Port this w).1.2 in
  Start_Internal Port' this1 w' =
    (true, this1,
     MkWorld (os w') (host w')
       (trace w' ++ [EvLog Warning "UEMCP Server already running." []])).
Proof.
  intros Hok this1. apply Start_Internal_running.
  by apply Start_Internal_true.
Qed.

(** *** What every call keeps *)

Lemma consistent_new w : consistent new_server w.
Proof. repeat split; cbn; [done|constructor|constructor]. Qed.

Lemma consistent_Get i w :
  (forall this, i = Some this -> consistent this w) -> consistent (Get i) w.
Proof. destruct i as [this|]; cbn; [auto|intros _; apply consistent_new]. Qed.

Lemma Start_Internal_consistent (Port : Z) this w :
  consistent this w ->
  consistent (Start_Internal Port this w).1.2 (Start_Internal Port this w).2.
Proof.
  intros Hc. destruct (consistent_handles _ _ Hc) as [Hnd Hlt].
  unfold Start_Internal, call_Listening, os_listen.
  destruct (bIsServerRunning this) eqn:Hrun; [exact Hc|].
  destruct (negb (subsystem (os w))); [exact Hc|].
  destruct (can_listen (os w) (to_uint16 Port)); cbn.
  - split; [by eauto|]. unfold owned. cbn. split.
    + apply NoDup_app. repeat split; [done| |apply NoDup_singleton].
      intros x Hx ->%list_elem_of_singleton.
      rewrite Forall_forall in Hlt. specialize (Hlt _ Hx). lia.
    + apply Forall_app. split; [|repeat constructor; lia].
      eapply Forall_impl; [exact Hlt|]. intros x Hx. cbn in Hx. lia.
  - split; [done|]. unfold owned. cbn. by rewrite app_nil_r.
Qed.

Lemma Stop_Internal_consistent this w :
  consistent this w -> consistent (Stop_Internal this w).1 (Stop_Internal this w).2.
Proof.
  intros Hc. destruct (bIsServerRunning this) eqn:Hrun.
  - destruct (Stop_Internal_running this w Hrun) as (-> & _ & _ & _).
    repeat split; cbn; [done|constructor|constructor].
  - unfold Stop_Internal. by rewrite Hrun.
Qed.

Lemma Tick_Internal_consistent this w :
  consistent this w ->
  exists this' w',
    Tick_Internal this w = Some (this', w') /\ consistent this' w'.
Proof.
  intros Hc. destruct (bIsServerRunning this) eqn:Hrun.
  2:{ exists this, w. unfold Tick_Internal. by rewrite Hrun. }
  destruct (consistent_handles _ _ Hc) as [Hnd Hlt].
  destruct Hc as (Hls & Hndo & Hlto). destruct (Hls Hrun) as [l Hl].
  destruct (Tick_Internal_spec this w l Hrun Hl Hnd Hlt)
    as (w1 & evs1 & this' & w' & evs2 & _ & _ & _ & _ & Htick & _
        & Hl' & Hr' & Hc' & _ & _ & _ & _ & Hn & Hlt').
  exists this', w'. split; [done|].
  unfold owned in Hndo, Hlto. rewrite Hl in Hndo, Hlto.
  unfold consistent, owned. rewrite Hl', Hl, Hc'.
  change (option_list (Some l)) with [l] in *.
  apply NoDup_app in Hndo as (_ & Hdisj & _).
  rewrite Forall_app, Forall_singleton in Hlto. destruct Hlto as [_ Hll].
  split; [by eauto|]. split.
  - apply NoDup_app. repeat split; [|  |apply NoDup_singleton].
    + unfold still_connected. apply NoDup_filter. by apply NoDup_after_accept.
    + intros x Hx ->%list_elem_of_singleton.
      unfold still_connected in Hx. apply list_elem_of_filter in Hx as [_ Hx].
      apply elem_of_app in Hx as [Hx|Hx].
      * apply (Hdisj l Hx). by apply list_elem_of_singleton.
      * unfold accepted in Hx.
        destruct (can_query (os w)), (backlog (os w)) as [|[p|] rest];
          try by apply elem_of_nil in Hx.
        apply list_elem_of_singleton in Hx. lia.
  - apply Forall_app. split; [|repeat constructor; lia].
    unfold still_connected. rewrite Forall_forall in Hlt'. apply Forall_forall.
    intros x Hx. apply list_elem_of_filter in Hx as [_ Hx]. by apply Hlt'.
Qed.

Lemma run_consistent (call : Call) i w :
  (forall this, i = Some this -> consistent this w) ->
  exists i' w',
    run call i w = Some (i', w') /\
    forall this, i' = Some this -> consistent this w'.
Proof.
  intros Hi. pose proof (consistent_Get i w Hi) as Hg.
  destruct call as [Port| | |]; cbn [run].
  - unfold Start. pose proof (Start_Internal_consistent Port (Get i) w Hg) as H.
    destruct (Start_Internal Port (Get i) w) as [[r this1] w1]. cbn in H.
    exists (Some this1), w1. split; [done|]. by intros ? [= <-].
  - unfold Stop. pose proof (Stop_Internal_consistent (Get i) w Hg) as H.
    destruct (Stop_Internal (Get i) w) as [this1 w1]. cbn in H.
    exists (Some this1), w1. split; [done|]. by intros ? [= <-].
  - unfold Tick. destruct (Tick_Internal_consistent (Get i) w Hg) as (this' & w' & -> & H).
    exists (Some this'), w'. split; [done|]. by intros ? [= <-].
  - unfold Shutdown. destruct i as [this|].
    + destruct (Stop_Internal this w) as [this1 w1].
      destruct (Stop_Internal this1 w1) as [this2 w2].
      exists None, w2. split; [done|]. by intros ? [=].
    + exists None, w. split; [done|]. by intros ? [=].
Qed.

(** In every state a sequence of calls reaches, the server object is tied
    to the subsystem as [consistent] says: the hypotheses on the handles in
    the properties of [Tick_Internal] and [Stop_Internal] hold there. *)
Lemma reachable_in_consistent i w :
  reachable_in i w -> forall this, i = Some this -> consistent this w.
Proof.
  induction 1 as [w|call i w i' w' _ IH Hrun|i w w' _ IH Hle _].
  - by intros ? [=].
  - destruct (run_consistent call i w IH) as (i2 & w2 & Hrun2 & Hc).
    rewrite Hrun in Hrun2. by injection Hrun2 as <- <-.
  - intros this Hi. destruct (IH this Hi) as (Hl & Hnd & Hlt).
    repeat split; [done|done|].
    eapply Forall_impl; [exact Hlt|]. intros x Hx. cbn in Hx. lia.
Qed.

(** No call, in any reachable state, goes through a null pointer or past
    the end of the connection array. *)
Lemma reachable_in_safe (call : Call) i w :
  reachable_in i w -> is_Some (run call i w).
Proof.
  intros Hr. destruct (run_consistent call i w (reachable_in_consistent i w Hr))
    as (i' & w' & -> & _). by eexists.
Qed.

(** *** The running flag and the listening socket *)

Lemma Tick_loop_keeps (n : nat) this w this' w' :
  Tick_loop n this w = Some (this', w') ->
  ListenSocket this' = ListenSocket this /\
  bIsServerRunning this' = bIsServerRunning this.
Proof.
  revert this w. induction n as [|n IH]; intros this w; cbn [Tick_loop].
  { by intros [= <- <-]. }
  destruct (ConnectedSockets this !! n) as [c|]; [|done].
  pose proof (HandleData_spec c this w) as H. cbn zeta in H.
  destruct (HandleData c this w) as [this1 w1]. cbn [fst snd] in H.
  destruct H as (Hl & Hr & _). intros Hloop. apply IH in Hloop as [-> ->]. done.
Qed.

Lemma Tick_Internal_keeps this w this' w' :
  Tick_Internal this w = Some (this', w') ->
  ListenSocket this' = ListenSocket this /\
  bIsServerRunning this' = bIsServerRunning this.
Proof.
  unfold Tick_Internal. destruct (bIsServerRunning this) eqn:Hrun; cbn [negb].
  2:{ intros [= <- <-]. by rewrite Hrun. }
  destruct (ListenSocket this) as [l|] eqn:Hl.
  2:{ unfold HandleNewConnection. by rewrite Hl. }
  destruct (HandleNewConnection_spec this w l Hl) as (w1 & evs & -> & _).
  intros Hloop. apply Tick_loop_keeps in Hloop as [-> ->]. cbn. by rewrite Hrun.
Qed.

Lemma run_keeps_listening (call : Call) i w i' w' :
  (forall this, i = Some this ->
     bIsServerRunning this = true -> is_Some (ListenSocket this)) ->
  run call i w = Some (i', w') ->
  forall this, i' = Some this ->
    bIsServerRunning this = true -> is_Some (ListenSocket this).
Proof.
  intros Hi. assert (Hg : bIsServerRunning (Get i) = true -> is_Some (ListenSocket (Get i))).
  { destruct i as [this|]; cbn; [auto|done]. }
  destruct call as [Port| | |]; cbn [run].
  - unfold Start, Start_Internal, call_Listening.
    destruct (bIsServerRunning (Get i)) eqn:Hrun.
    { intros [= <- _] this [= <-]. auto. }
    destruct (negb (subsystem (os w))).
    { intros [= <- _] this [= <-]. by rewrite Hrun. }
    destruct (os_listen Port (os w)) as [[s|] o];
      intros [= <- _] this [= <-]; cbn; [by eauto|done].
  - unfold Stop, Stop_Internal. destruct (bIsServerRunning (Get i)) eqn:Hrun; cbn [negb].
    + intros [= <- _] this [= <-]. done.
    + intros [= <- _] this [= <-]. by rewrite Hrun.
  - unfold Tick. destruct (Tick_Internal (Get i) w) as [[this1 w1]|] eqn:Ht; [|done].
    apply Tick_Internal_keeps in Ht as [Hl Hr].
    intros [= <- _] this [= <-]. rewrite Hl, Hr. auto.
  - unfold Shutdown. destruct i as [this0|].
    + destruct (Stop_Internal this0 w) as [this1 w1].
      destruct (Stop_Internal this1 w1) as [this2 w2]. by intros [= <- _] this [=].
    + by intros [= <- _] this [=].
Qed.

(** C10. Whatever calls of [Start], [Stop], [Tick] (and [Shutdown]) were
    made since the process started, and whatever the network and the engine
    did in between, a server whose [bIsServerRunning] is true has a
    [ListenSocket] that is not null, so the accept step of a tick never calls
    [HasPendingConnection] through a null pointer. *)
Theorem C10_running_server_has_listen_socket i this :
  reachable i ->
  i = Some this ->
  bIsServerRunning this = true ->
  (exists l, ListenSocket this = Some l) /\
  (forall w, HandleNewConnection this w <> None).
Proof.
  intros Hreach. revert this.
  assert (H : forall this, i = Some this ->
                bIsServerRunning this = true -> is_Some (ListenSocket this)).
  { induction Hreach as [|call i w i' w' _ IH Hrun]; [by intros ? [=]|].
    by apply (run_keeps_listening call i w i' w'). }
  intros this Hi Hrun. destruct (H this Hi Hrun) as [l Hl].
  split; [by exists l|]. intros w.
  destruct (HandleNewConnection_spec this w l Hl) as (w1 & evs & -> & _). done.
Qed.

End LifecycleProperties.

(** *** The lifecycle on the sample server *)

Section ServerRuns.

Local Existing Instance Ref.strings_ops.
Local Existing Instance Ref.json.
Local Existing Instance Ref.engine.

Let w0 : World := Sample.world Sample.busy (Sample.editor true).

(** Shows [consistent] for a concrete server and world. *)
Ltac show_consistent :=
  split; [intros _; by eexists|];
  split; [apply NoDup_ListNoDup; repeat constructor; cbn; intuition lia
         |repeat constructor; cbn; lia].

(** Counterexample to C2 as stated: the list is [2; 3], and the tick polls
    3 first and 2 last; the command of client 3 is handled before the command
    of client 2. *)
Lemma C2_counterexample :
  ConnectedSockets Sample.serving = [2; 3]%nat /\
  exists this' w',
    Tick_Internal Sample.serving w0 = Some (this', w') /\
    polled (trace w') = [3; 2]%nat /\
    resolved (trace w') = ["Box"%string] /\
    trace w' =
      [EvHasPendingConnection 1%nat;
       EvHasPendingData 3%nat; EvRecv 3%nat 72;
       EvLog Log "Received: %s" [ArgS Sample.spawn_box];
       EvFindObject "Box"; EvGetWorld;
       EvSpawnActor ("Box" : UClass) (MkFVector 1 2 3) ZeroRotator;
       EvLog Log "Successfully spawned actor: %s" [ArgS "Box_0"];
       EvHasPendingData 3%nat; EvGetConnectionState 3%nat;
       EvLog Log "Client disconnected." []; EvDestroySocket 3%nat;
       EvHasPendingData 2%nat; EvRecv 2%nat 17;
       EvLog Log "Received: %s" [ArgS Sample.noop];
       EvLog Warning "Unknown intent: %s" [ArgS "noop"];
       EvHasPendingData 2%nat; EvGetConnectionState 2%nat].
Proof.
  split; [reflexivity|]. eexists _, _. split; [vm_compute; reflexivity|].
  vm_compute. repeat split.
Qed.

(** The sample server is reachable: it is the server at the end of the
    sample session, whose every step is a call of the API or a move of the
    network. *)
Lemma sample_session_reachable :
  Forall (fun st : Sample.session_state => reachable_in (fst st) (snd st))
         Sample.session /\
  exists w, last Sample.session = Some (Some Sample.serving, w) /\ os w = Sample.busy.
Proof.
  split; [|eexists; split; vm_compute; reflexivity].
  unfold Sample.session. cbv zeta.
  set (s0 := (None, Sample.world Sample.quiet (Sample.editor true))
             : Sample.session_state).
  set (s1 := Sample.after (CallStart 7000) s0).
  set (s2 := Sample.arrive Sample.first_client s1).
  set (s3 := Sample.after CallTick s2).
  set (s4 := Sample.arrive Sample.second_client s3).
  set (s5 := Sample.after CallTick s4).
  set (s6 := Sample.arrive Sample.busy s5).
  assert (H0 : reachable_in (fst s0) (snd s0)) by apply reachable_in_init.
  assert (H1 : reachable_in (fst s1) (snd s1)).
  { apply (reachable_in_call (CallStart 7000) _ _ _ _ H0). vm_compute. reflexivity. }
  assert (H2 : reachable_in (fst s2) (snd s2)).
  { eapply reachable_in_moves; [exact H1| |reflexivity]. vm_compute. lia. }
  assert (H3 : reachable_in (fst s3) (snd s3)).
  { apply (reachable_in_call CallTick _ _ _ _ H2). vm_compute. reflexivity. }
  assert (H4 : reachable_in (fst s4) (snd s4)).
  { eapply reachable_in_moves; [exact H3| |reflexivity]. vm_compute. lia. }
  assert (H5 : reachable_in (fst s5) (snd s5)).
  { apply (reachable_in_call CallTick _ _ _ _ H4). vm_compute. reflexivity. }
  assert (H6 : reachable_in (fst s6) (snd s6)).
  { eapply reachable_in_moves; [exact H5| |reflexivity]. vm_compute. lia. }
  repeat (constructor; [assumption|]). constructor.
Qed.

(** Witness of C2: the sample server in the sample world. *)
Lemma C2_witness :
  exists l this1 w1 evs1 evs2,
    ListenSocket Sample.serving = Some l /\
    HandleNewConnection Sample.serving w0 = Some (this1, w1) /\
    ConnectedSockets this1 = ConnectedSockets Sample.serving ++ accepted (os w0) /\
    Tick_Internal Sample.serving w0 =
      Some (foldl poll (this1, w1) (rev (ConnectedSockets this1))) /\
    trace (foldl poll (this1, w1) (rev (ConnectedSockets this1))).2 =
      trace w0 ++ EvHasPendingConnection l :: evs1 ++ evs2 /\
    polled evs1 = [] /\
    polled evs2 = rev (ConnectedSockets this1).
Proof.
  apply (C2_tick_accepts_then_polls_backwards Sample.serving w0);
    [show_consistent | reflexivity].
Defined.

(** Witness of C8: client 3 has left and client 2 is connected; the tick
    releases the socket of client 3 once, client 2 stays, and the list goes
    from two connections to one. *)
Lemma C8_witness :
  exists this' w' evs this1 w1,
    Tick_Internal Sample.serving w0 = Some (this', w') /\
    trace w' = trace w0 ++ evs /\
    (3%nat ∉ ConnectedSockets this') /\
    length (filter (fun s => s = 3%nat) (released evs)) = 1%nat /\
    closed evs = [] /\
    (length (ConnectedSockets this') + length (released evs) =
     length (ConnectedSockets Sample.serving ++ accepted (os w0)))%nat /\
    HandleNewConnection Sample.serving w0 = Some (this1, w1) /\
    ConnectedSockets this1 = ConnectedSockets Sample.serving ++ accepted (os w0) /\
    (forall s, s ∈ ConnectedSockets Sample.serving ->
               conn_state s (os w1) = conn_state s (os w0)) /\
    ConnectedSockets this' =
      filter (fun s => conn_state s (os w1) = SCS_Connected) (ConnectedSockets this1) /\
    released evs =
      rev (filter (fun s => conn_state s (os w1) <> SCS_Connected) (ConnectedSockets this1)) /\
    (forall s, s ∈ ConnectedSockets Sample.serving ->
               conn_state s (os w0) = SCS_Connected ->
               s ∈ ConnectedSockets this' /\ s ∉ released evs).
Proof.
  apply (C8_tick_removes_disconnected_once Sample.serving w0 3%nat);
    [show_consistent | reflexivity | | ].
  - apply list_elem_of_In. cbn. auto.
  - vm_compute. discriminate.
Defined.

(** Witness of C9: client 2 is connected and its message names an unknown
    intent; polling it leaves the server as it was. *)
Lemma C9_witness :
  (HandleData 2%nat Sample.serving w0).1 = Sample.serving /\
  (forall c', conn_state c' (os (HandleData 2%nat Sample.serving w0).2)
              = conn_state c' (os w0)) /\
  exists evs,
    trace (HandleData 2%nat Sample.serving w0).2 = trace w0 ++ evs /\
    closed evs = [] /\ released evs = [].
Proof.
  apply (proj1 (proj2 (C9_messages_leave_server_unchanged 2%nat Sample.serving w0))).
  reflexivity.
Defined.

(** Witness of C6: [Start(7000)] on the sample server, which runs. *)
Lemma C6_witness :
  Start_Internal 7000 Sample.serving w0 =
    (true, Sample.serving,
     MkWorld (os w0) (host w0) [EvLog Warning "UEMCP Server already running." []]) /\
  Start 7000 (Some Sample.serving) w0 =
    (true, Some Sample.serving,
     MkWorld (os w0) (host w0) [EvLog Warning "UEMCP Server already running." []]).
Proof.
  apply (C6_start_when_running_is_noop 7000 Sample.serving w0). reflexivity.
Defined.

(** Witness of C7: stopping a server that never started, and stopping the
    sample server: sockets 2, 3 and 1 are closed and released, once each. *)
Lemma C7_witness :
  Stop_Internal new_server w0 = (new_server, w0) /\
  (Stop_Internal Sample.serving w0).1 = MkServer None [] false /\
  closed (closing (owned Sample.serving) ++ [EvLog Log "UEMCP Server stopped." []])
    = [2; 3; 1]%nat /\
  NoDup (released
           (closing (owned Sample.serving) ++ [EvLog Log "UEMCP Server stopped." []])).
Proof.
  split.
  - apply (proj1 (C7_stop_twice_closes_once new_server w0)). reflexivity.
  - destruct (proj2 (C7_stop_twice_closes_once Sample.serving w0) eq_refl)
      as (H1 & _ & _ & H4 & _ & H6).
    split; [exact H1|]. split; [exact H4|].
    apply H6. apply NoDup_ListNoDup; repeat constructor; cbn; intuition lia.
Defined.

(** Witness of C10: the server after [Start(7000)] in a quiet world. *)
Lemma C10_witness :
  (exists l, ListenSocket (MkServer (Some 1%nat) [] true) = Some l) /\
  (forall w : World, HandleNewConnection (MkServer (Some 1%nat) [] true) w <> None).
Proof.
  apply (C10_running_server_has_listen_socket
           (Some (MkServer (Some 1%nat) [] true)) (MkServer (Some 1%nat) [] true));
    [|reflexivity|reflexivity].
  apply (reachable_call (CallStart 7000) None
           (Sample.world Sample.quiet (Sample.editor true))
           (Some (MkServer (Some 1%nat) [] true))
           (UE_LOG Log "UEMCP Server started, listening on port %d" [ArgD 7000]
              (call_Listening 7000 (Sample.world Sample.quiet (Sample.editor true))).2));
    [apply reachable_init | reflexivity].
Defined.

End ServerRuns.

(** ** Further properties of command handling *)

Section MoreCommandProperties.

Context {strings_ops : FStringOps} {json : JsonLibrary} {engine : Engine}.

Implicit Types (w : World) (evs : list Event) (this : UEMCPTCPServer).

(** Either the command is refused with one log line before the engine is
    asked anything, or it is a well-shaped [spawn_actor] request. *)
Lemma HandleCommand_cases JsonString w :
  (exists v fmt args,
     HandleCommand JsonString w =
       MkWorld (os w) (host w) (trace w ++ [EvLog v fmt args]) /\
     String.eqb fmt "Received: %s" = false) \/
  (exists ClassName L0 L1 L2, spawn_request JsonString ClassName L0 L1 L2).
Proof.
  unfold HandleCommand, spawn_request.
  destruct (Deserialize JsonString) as [o|] eqn:HD; [|left; by eexists _, _, _].
  destruct (TryGetStringField o "intent") as [Intent|] eqn:HI;
    [|left; by eexists _, _, _].
  destruct (FString_eq Intent "spawn_actor") eqn:HE; [|left; by eexists _, _, _].
  destruct (TryGetObjectField o "parameters") as [P|] eqn:HP;
    [|left; by eexists _, _, _].
  destruct (TryGetStringField P "class") as [C|] eqn:HC; [|left; by eexists _, _, _].
  destruct (TryGetArrayField P "location") as [[|L0 [|L1 [|L2 [|L3 a]]]]|] eqn:HL;
    try (left; by eexists _, _, _).
  right. exists C, L0, L1, L2, o, Intent, P. done.
Qed.

(** X7. Whatever the message, [HandleCommand] calls [SpawnActor] at most
    once, and only for a well-shaped [spawn_actor] request whose class
    [FindObject] resolved and with a world at hand; [FindObject] itself is only
    called for a well-shaped request, with the class name of the request; and
    when nothing is spawned the engine's state is what it was. *)
Theorem X7_engine_called_only_for_valid_requests (JsonString : FString) (w : World) :
  exists evs,
    trace (HandleCommand JsonString w) = trace w ++ evs /\
    (length (spawned evs) <= 1)%nat /\
    (resolved evs <> [] ->
     exists ClassName L0 L1 L2,
       spawn_request JsonString ClassName L0 L1 L2 /\ resolved evs = [ClassName]) /\
    (spawned evs <> [] ->
     exists ClassName L0 L1 L2 ActorClass Wd,
       spawn_request JsonString ClassName L0 L1 L2 /\
       FindObject ClassName (host w) = Some ActorClass /\
       GetWorld (host w) = Some Wd /\
       spawned evs =
         [(ActorClass, MkFVector (AsNumber L0) (AsNumber L1) (AsNumber L2), ZeroRotator)]) /\
    (spawned evs = [] -> host (HandleCommand JsonString w) = host w).
Proof.
  destruct (HandleCommand_cases JsonString w)
    as [(v & fmt & args & -> & _)|(C & L0 & L1 & L2 & Hreq)].
  { eexists. split; [reflexivity|]. cbn. repeat split; try done; lia. }
  rewrite (HandleCommand_spawn_request _ _ _ _ _ _ Hreq).
  unfold call_FindObject, call_GetWorld, call_SpawnActor, UE_LOG, emit. cbn zeta.
  destruct (FindObject C (host w)) as [A|] eqn:HF; cbn [host os trace].
  2:{ eexists. rewrite <- !(assoc_L (++)). split; [reflexivity|]. cbn.
      repeat split; try done; try lia. intros _. by exists C, L0, L1, L2. }
  destruct (GetWorld (host w)) as [Wd|] eqn:HW; cbn [host os trace].
  2:{ eexists. rewrite <- !(assoc_L (++)). split; [reflexivity|]. cbn.
      repeat split; try done; try lia. intros _. by exists C, L0, L1, L2. }
  destruct (SpawnActor Wd A _ ZeroRotator (host w)) as [[a|] h] eqn:HS;
    cbn [host os trace];
    (eexists; rewrite <- !(assoc_L (++)); split; [reflexivity|]; cbn;
     split; [lia|]; split; [intros _; by exists C, L0, L1, L2|];
     split; [intros _; by exists C, L0, L1, L2, A, Wd|done]).
Qed.

(** X8. The four ways a [spawn_actor] command is refused before anything
    is spawned, in the order the code tests them. When [TryGetObjectField]
    delivers no [parameters] object, when [TryGetStringField] delivers no
    [class] from it, and when [TryGetArrayField] delivers no [location] array
    or one that has not three elements, the command is refused with the error
    line of that test and the engine is not asked anything (so a bad location
    is reported before the class is looked up). With a class and a location of
    three elements, when [FindObject] does not resolve the class, the lookup is
    the only call into the engine, the error line names the class, and the
    world is not even fetched. *)
Theorem X8_spawn_actor_validation_errors (JsonString : FString) (w : World)
    (JsonObject : FJsonObject) (Intent : FString) :
  Deserialize JsonString = Some JsonObject ->
  TryGetStringField JsonObject "intent" = Some Intent ->
  FString_eq Intent "spawn_actor" = true ->
  (TryGetObjectField JsonObject "parameters" = None ->
   HandleCommand JsonString w =
     MkWorld (os w) (host w)
       (trace w ++ [EvLog Error "Missing 'parameters' for spawn_actor." []])) /\
  (forall P,
     TryGetObjectField JsonObject "parameters" = Some P ->
     TryGetStringField P "class" = None ->
     HandleCommand JsonString w =
       MkWorld (os w) (host w)
         (trace w ++ [EvLog Error "Missing 'class' parameter for spawn_actor." []])) /\
  (forall P ClassName,
     TryGetObjectField JsonObject "parameters" = Some P ->
     TryGetStringField P "class" = Some ClassName ->
     match TryGetArrayField P "location" with
     | Some a => length a <> 3%nat
     | None => True
     end ->
     HandleCommand JsonString w =
       MkWorld (os w) (host w)
         (trace w ++
          [EvLog Error
             "Invalid 'location' parameter for spawn_actor. Must be an array of 3 numbers."
             []])) /\
  (forall P ClassName L0 L1 L2,
     TryGetObjectField JsonObject "parameters" = Some P ->
     TryGetStringField P "class" = Some ClassName ->
     TryGetArrayField P "location" = Some [L0; L1; L2] ->
     FindObject ClassName (host w) = None ->
     HandleCommand JsonString w =
       MkWorld (os w) (host w)
         (trace w ++ [EvFindObject ClassName;
                      EvLog Error "Could not find class: %s" [ArgS ClassName]])).
Proof.
  intros HD HI HE. split; [|split; [|split]].
  - intros HP. unfold HandleCommand. by rewrite HD, HI, HE, HP.
  - intros P HP HC. unfold HandleCommand. by rewrite HD, HI, HE, HP, HC.
  - intros P C HP HC HL. by eapply HandleCommand_location_not_three.
  - intros P C L0 L1 L2 HP HC HL HF. unfold HandleCommand.
    rewrite HD, HI, HE, HP, HC, HL. unfold call_FindObject. rewrite HF.
    unfold UE_LOG, emit. cbn. by rewrite <- (assoc_L (++)).
Qed.

End MoreCommandProperties.

(** ** Further properties of connection handling *)

Section MoreConnectionProperties.

Context {strings_ops : FStringOps} {json : JsonLibrary} {engine : Engine}.

Implicit Types (w : World) (evs : list Event) (this : UEMCPTCPServer)
  (c l : FSocket) (o : OS).

Lemma received_app evs1 evs2 : received (evs1 ++ evs2) = received evs1 ++ received evs2.
Proof. apply omap_app. Qed.








Lemma HandleData_pending c this w : pending c (os (HandleData c this w).2) = 0%nat.
Proof.
  unfold HandleData, call_GetConnectionState.
  destruct (is_connected _); cbn [snd os emit].
  - apply drain_exits. lia.
  - unfold call_DestroySocket, pending. cbn. by rewrite lookup_delete_eq.
Qed.

(** X10. After [HandleData] nothing is pending on the socket it polled,
    and no other socket has lost a byte or changed its state; the backlog of
    the listening socket is as it was. *)
Theorem X10_HandleData_drains_its_socket_only c this w :
  pending c (os (HandleData c this w).2) = 0%nat /\
  backlog (os (HandleData c this w).2) = backlog (os w) /\
  forall c', c' <> c ->
    rx_of c' (os (HandleData c this w).2) = rx_of c' (os w) /\
    conn_state c' (os (HandleData c this w).2) = conn_state c' (os w).
Proof.
  pose proof (HandleData_spec c this w) as H. cbn zeta in H.
  destruct H as (_ & _ & _ & Hk & _).
  split; [|split].
  - apply HandleData_pending.
  - by destruct Hk as (_ & _ & _ & ? & _).
  - intros c' Hc. split; [|by eapply conn_state_kept].
    destruct Hk as (_ & _ & _ & _ & _ & Hs). unfold rx_of. by rewrite Hs.
Qed.

End MoreConnectionProperties.

(** ** Further properties of a tick *)

Section MoreTickProperties.

Context {strings_ops : FStringOps} {json : JsonLibrary} {engine : Engine}.

Implicit Types (w : World) (evs : list Event) (this : UEMCPTCPServer)
  (c l : FSocket) (o : OS).

(** What the accept step does to the subsystem: at most one inbound
    connection leaves the backlog, and the socket made for it holds what the
    connection brought. *)
Lemma HandleNewConnection_backlog this w l :
  ListenSocket this = Some l ->
  exists this1 w1,
    HandleNewConnection this w = Some (this1, w1) /\
    backlog (os w1) =
      (if can_query (os w) then tail (backlog (os w)) else backlog (os w)) /\
    still_connected (os w1) (accepted (os w)) = accepted_connected (os w).
Proof.
  intros Hl. unfold HandleNewConnection, call_HasPendingConnection, call_Accept,
    accepted, accepted_connected, still_connected.
  rewrite Hl. cbn [emit os]. unfold os_accept.
  destruct (can_query (os w)), (backlog (os w)) as [|[p|] rest] eqn:Hb; cbn [andb];
    do 2 eexists; (split; [reflexivity|]); cbn; try done.
  unfold conn_state. cbn. rewrite lookup_insert_eq. cbn.
  rewrite decide_bool_decide. by destruct (is_connected (conn p)).
Qed.

(** Polling the sockets of [a] one after the other drains each of them and
    touches no socket outside [a]. *)
Lemma foldl_poll_drains (a : list FSocket) :
  forall st : UEMCPTCPServer * World,
    NoDup a ->
    (forall c, c ∈ a -> pending c (os (foldl poll st a).2) = 0%nat) /\
    (forall c, c ∉ a -> sockets (os (foldl poll st a).2) !! c = sockets (os st.2) !! c).
Proof.
  induction a as [|c a IH]; intros st Hnd; cbn [foldl].
  { split; [by intros c ?%elem_of_nil|done]. }
  apply NoDup_cons in Hnd as [Hc Hnd].
  destruct (IH (poll st c) Hnd) as [IH1 IH2].
  pose proof (HandleData_pending c st.1 st.2) as Hx.
  split.
  - intros x [->|Hx']%elem_of_cons; [|by apply IH1].
    unfold pending. rewrite (IH2 c Hc). apply Hx.
  - intros x [Hxc Hxa]%not_elem_of_cons. rewrite (IH2 x Hxa).
    pose proof (HandleData_spec c st.1 st.2) as H. cbn zeta in H.
    destruct H as (_ & _ & _ & (_ & _ & _ & _ & _ & Hs) & _). by apply Hs.
Qed.

(** Polling connections that are connected and have nothing pending only
    adds the two tests per connection to the trace. *)
Lemma foldl_poll_idle (a : list FSocket) :
  forall this w,
    Forall (fun c => pending c (os w) = 0%nat /\ conn_state c (os w) = SCS_Connected) a ->
    foldl poll (this, w) a = (this, MkWorld (os w) (host w) (trace w ++ idle_polls a)).
Proof.
  induction a as [|c a IH]; intros this w Hall; cbn [foldl].
  { unfold idle_polls. cbn. rewrite app_nil_r. by destruct w. }
  apply Forall_cons in Hall as [[Hp Hc] Hall].
  assert (Hpoll : poll (this, w) c =
                  (this, MkWorld (os w) (host w)
                           (trace w ++ [EvHasPendingData c; EvGetConnectionState c]))).
  { unfold poll, HandleData, call_GetConnectionState. cbn [fst snd].
    rewrite Hp. cbn [drain]. unfold call_HasPendingData. rewrite Hp.
    cbn [os emit]. rewrite Hc. cbn. unfold emit. cbn.
    by rewrite <- (assoc_L (++)). }
  rewrite Hpoll, IH by exact Hall. cbn [os host trace].
  unfold idle_polls. cbn. by rewrite <- (assoc_L (++)).
Qed.

(** X12. How a tick changes the connection list of a running, consistent
    server: the connections that are connected stay, in their order, those
    that are not go, and at most one new connection is added, at the end, and
    only if it is still connected when polled. At most one inbound connection
    leaves the backlog per tick, however many wait. *)
Theorem X12_tick_connection_list this w :
  consistent this w ->
  bIsServerRunning this = true ->
  exists this' w',
    Tick_Internal this w = Some (this', w') /\
    ConnectedSockets this' =
      still_connected (os w) (ConnectedSockets this) ++ accepted_connected (os w) /\
    (length (accepted_connected (os w)) <= 1)%nat /\
    backlog (os w') =
      (if can_query (os w) then tail (backlog (os w)) else backlog (os w)).
Proof.
  intros Hcons Hrun.
  destruct (consistent_listening this w Hcons Hrun) as [l Hl].
  destruct (consistent_handles this w Hcons) as [Hnd Hlt].
  destruct (Tick_Internal_spec this w l Hrun Hl Hnd Hlt)
    as (w1 & evs1 & this' & w' & evs2 & Hacc & _ & _ & Hcs & Htick & _
        & _ & _ & Hc' & _).
  destruct (HandleNewConnection_backlog this w l Hl) as (this1 & w1' & Hacc' & Hb & Hnew).
  rewrite Hacc in Hacc'. injection Hacc' as <- <-.
  exists this', w'. split; [done|]. split; [|split].
  - rewrite Hc'. unfold still_connected in *. rewrite filter_app, Hnew. f_equal.
    apply (still_connected_ext (os w) (os w1) (ConnectedSockets this) Hcs).
  - unfold accepted_connected.
    destruct (can_query (os w)), (backlog (os w)) as [|[p|] ?]; cbn; try lia.
    destruct (is_connected (conn p)); cbn; lia.
  - rewrite <- Hb. clear Hb Hnew.
    assert (Hnd1 : NoDup ((ConnectedSockets this ++ accepted (os w)) ++ [])).
    { rewrite app_nil_r. by apply NoDup_after_accept. }
    destruct (Tick_loop_spec (ConnectedSockets this ++ accepted (os w)) []
                (MkServer (ListenSocket this)
                          (ConnectedSockets this ++ accepted (os w))
                          (bIsServerRunning this)) w1)
      as (this2 & w2 & evs & Hloop & _ & _ & _ & _ & _ & _ & _ & _ & _ & Hbl & _);
      [by rewrite app_nil_r|done|].
    unfold Tick_Internal in Htick. rewrite Hrun, Hacc in Htick. cbn in Htick.
    rewrite Hloop in Htick. by injection Htick as <- <-.
Qed.

(** X13. When a tick of a running, consistent server returns, no
    connection of the list has bytes pending: everything the clients had sent
    when the connection was polled has been read in this tick. *)
Theorem X13_tick_leaves_nothing_pending this w :
  consistent this w ->
  bIsServerRunning this = true ->
  exists this' w',
    Tick_Internal this w = Some (this', w') /\
    forall c, c ∈ ConnectedSockets this' -> pending c (os w') = 0%nat.
Proof.
  intros Hcons Hrun.
  destruct (consistent_listening this w Hcons Hrun) as [l Hl].
  destruct (consistent_handles this w Hcons) as [Hnd Hlt].
  destruct (Tick_Internal_spec this w l Hrun Hl Hnd Hlt)
    as (w1 & evs1 & this' & w' & evs2 & _ & _ & _ & _ & Htick & Hfold
        & _ & _ & Hc' & _).
  exists this', w'. split; [done|]. intros c Hc.
  rewrite Hc' in Hc. unfold still_connected in Hc.
  apply list_elem_of_filter in Hc as [_ Hc].
  set (conns1 := ConnectedSockets this ++ accepted (os w)) in *.
  assert (Hnd1 : NoDup (rev conns1)).
  { apply NoDup_ListNoDup, NoDup_rev, NoDup_ListNoDup. by apply NoDup_after_accept. }
  destruct (foldl_poll_drains (rev conns1)
              (MkServer (ListenSocket this) conns1 (bIsServerRunning this), w1) Hnd1)
    as [Hdr _].
  rewrite <- Hfold in Hdr. apply Hdr.
  apply list_elem_of_In, in_rev. rewrite rev_involutive. by apply list_elem_of_In.
Qed.

(** X14. A tick with nothing to do changes nothing: with no inbound
    connection waiting, every connection connected and nothing pending, the
    tick leaves the server object, the subsystem and the engine as they were
    and only makes its tests: one for an inbound connection, then one for
    data and one for the connection state per connection, last one first. *)
Theorem X14_idle_tick_changes_nothing this w l :
  consistent this w ->
  bIsServerRunning this = true ->
  ListenSocket this = Some l ->
  backlog (os w) = [] ->
  Forall (fun c => pending c (os w) = 0%nat /\ conn_state c (os w) = SCS_Connected)
         (ConnectedSockets this) ->
  Tick_Internal this w =
    Some (this,
          MkWorld (os w) (host w)
            (trace w ++ EvHasPendingConnection l
                     :: idle_polls (rev (ConnectedSockets this)))).
Proof.
  intros Hcons Hrun Hl Hb Hall.
  destruct (consistent_handles this w Hcons) as [Hnd _].
  unfold Tick_Internal, HandleNewConnection, call_HasPendingConnection.
  rewrite Hrun, Hl, Hb. cbn [negb emit os]. rewrite andb_false_r.
  set (w1 := emit (EvHasPendingConnection l) w).
  destruct (Tick_loop_spec (ConnectedSockets this) [] this w1)
    as (this' & w' & evs & -> & Hfold & _); [by rewrite app_nil_r|by rewrite app_nil_r|].
  rewrite Hfold, (foldl_poll_idle (rev (ConnectedSockets this)) this w1).
  - subst w1. cbn. by rewrite <- (assoc_L (++)).
  - apply Forall_forall. intros c Hc. rewrite Forall_forall in Hall. apply Hall.
    apply list_elem_of_In, in_rev in Hc. by apply list_elem_of_In.
Qed.

End MoreTickProperties.

(** ** Further properties of the lifecycle, and the module *)

Section MoreLifecycleProperties.

Context {strings_ops : FStringOps} {json : JsonLibrary} {engine : Engine}.

Implicit Types (w : World) (evs : list Event) (this : UEMCPTCPServer)
  (c l : FSocket) (o : OS) (i : option UEMCPTCPServer).

(** X1. In every state a sequence of [Start], [Stop], [Tick] and
    [Shutdown] calls reaches, whatever the network did in between, every call
    of the API returns: none goes through a null [ListenSocket] or reads
    [ConnectedSockets] past its end, and the state it leaves is reachable
    again. *)
Theorem X1_no_call_fails_in_a_reachable_state (call : Call) i w :
  reachable_in i w ->
  exists i' w', run call i w = Some (i', w') /\ reachable_in i' w'.
Proof.
  intros Hr.
  destruct (run_consistent call i w (reachable_in_consistent i w Hr))
    as (i' & w' & Hrun & _).
  exists i', w'. split; [done|]. by apply (reachable_in_call call i w).
Qed.

(** X2. In every reachable state the server owns no socket twice: the
    sockets of the connection list are pairwise distinct and the listening
    socket is not among them. *)
Theorem X2_no_socket_owned_twice i w this :
  reachable_in i w ->
  i = Some this ->
  NoDup (ConnectedSockets this) /\
  (forall l, ListenSocket this = Some l -> l ∉ ConnectedSockets this).
Proof.
  intros Hr Hi. destruct (reachable_in_consistent i w Hr this Hi) as (_ & Hnd & _).
  unfold owned in Hnd. apply NoDup_app in Hnd as (Hc & Hdisj & _).
  split; [done|]. intros l Hl Hin. apply (Hdisj l Hin). rewrite Hl.
  by apply list_elem_of_singleton.
Qed.

(** What the calls keep for a server that does not run. *)
Lemma run_keeps_stopped_empty (call : Call) i w i' w' :
  (forall this, i = Some this -> bIsServerRunning this = false -> owned this = []) ->
  run call i w = Some (i', w') ->
  forall this, i' = Some this -> bIsServerRunning this = false -> owned this = [].
Proof.
  intros Hi.
  assert (Hg : bIsServerRunning (Get i) = false -> owned (Get i) = []).
  { destruct i as [this|]; cbn; [auto|done]. }
  destruct call as [Port| | |]; cbn [run].
  - unfold Start, Start_Internal, call_Listening.
    destruct (bIsServerRunning (Get i)) eqn:Hrun.
    { intros [= <- _] this [= <-]. by rewrite Hrun. }
    destruct (negb (subsystem (os w))).
    { intros [= <- _] this [= <-]. auto. }
    specialize (Hg eq_refl). unfold owned in Hg. apply app_eq_nil in Hg as [Hc _].
    destruct (os_listen Port (os w)) as [[s|] o];
      intros [= <- _] this [= <-]; cbn; [done|]. intros _. unfold owned. cbn.
    by rewrite Hc.
  - unfold Stop, Stop_Internal. destruct (bIsServerRunning (Get i)) eqn:Hrun; cbn [negb].
    + intros [= <- _] this [= <-]. done.
    + intros [= <- _] this [= <-]. auto.
  - unfold Tick. destruct (Tick_Internal (Get i) w) as [[this1 w1]|] eqn:Ht; [|done].
    intros [= <- _] this [= <-] Hrun.
    destruct (Tick_Internal_keeps _ _ _ _ Ht) as [_ Hr]. rewrite Hrun in Hr.
    unfold Tick_Internal in Ht. rewrite <- Hr in Ht. cbn in Ht.
    injection Ht as <- _. auto.
  - unfold Shutdown. destruct i as [this0|].
    + destruct (Stop_Internal this0 w) as [this1 w1].
      destruct (Stop_Internal this1 w1) as [this2 w2]. by intros [= <- _] this [=].
    + by intros [= <- _] this [=].
Qed.

(** X3. A server that is not running holds no socket: in every state a
    sequence of calls reaches, [bIsServerRunning] false means that
    [ListenSocket] is null and [ConnectedSockets] is empty. A [Start] that
    failed, a [Stop], a [Shutdown] leave nothing behind. *)
Theorem X3_stopped_server_holds_no_socket i this :
  reachable i ->
  i = Some this ->
  bIsServerRunning this = false ->
  ListenSocket this = None /\ ConnectedSockets this = [].
Proof.
  intros Hreach. revert this.
  assert (H : forall this, i = Some this ->
                bIsServerRunning this = false -> owned this = []).
  { induction Hreach as [|call i w i' w' _ IH Hrun]; [by intros ? [=]|].
    by apply (run_keeps_stopped_empty call i w i' w'). }
  intros this Hi Hrun. specialize (H this Hi Hrun). unfold owned in H.
  apply app_eq_nil in H as [Hc Hl]. split; [|done].
  by destruct (ListenSocket this).
Qed.

(** X4. The value [Start_Internal] returns is the running flag it leaves:
    true means the server runs, false means it does not; and a call that
    returns false has created no socket: the subsystem and the engine are as
    they were. *)
Theorem X4_start_result_is_the_running_flag (Port : Z) this w :
  bIsServerRunning (Start_Internal Port this w).1.2 = (Start_Internal Port this w).1.1 /\
  ((Start_Internal Port this w).1.1 = false ->
   os (Start_Internal Port this w).2 = os w /\
   host (Start_Internal Port this w).2 = host w /\
   ConnectedSockets (Start_Internal Port this w).1.2 = ConnectedSockets this).
Proof.
  unfold Start_Internal, call_Listening, os_listen.
  destruct (bIsServerRunning this) eqn:Hrun; [done|].
  destruct (negb (subsystem (os w))); [done|].
  destruct (can_listen (os w) (to_uint16 Port)); cbn; [done|].
  by destruct w.
Qed.

(** X5. A server that was stopped can be started again: after
    [Stop_Internal] on a running, consistent server, a [Start_Internal] in a
    later world whose subsystem is up and whose port can be bound returns
    true; the server then runs with an empty connection list and a listening
    socket that is none of the sockets it owned before. *)
Theorem X5_start_after_stop_listens_on_a_new_socket (Port : Z) this w w2 :
  consistent this w ->
  bIsServerRunning this = true ->
  (next (os w) <= next (os w2))%nat ->
  subsystem (os w2) = true ->
  can_listen (os w2) (to_uint16 Port) = true ->
  let this1 := (Stop_Internal this w).1 in
  exists l' w3,
    Start_Internal Port this1 w2 = (true, MkServer (Some l') [] true, w3) /\
    (l' ∉ owned this) /\
    trace w3 = trace w2 ++
      [EvListening (to_uint16 Port) 8;
       EvLog Log "UEMCP Server started, listening on port %d" [ArgD Port]].
Proof.
  intros (_ & _ & Hlt) Hrun Hle Hsub Hcan this1.
  destruct (Stop_Internal_running this w Hrun) as (H1 & _).
  subst this1. rewrite H1.
  unfold Start_Internal, call_Listening, os_listen. cbn [bIsServerRunning].
  rewrite Hsub, Hcan. cbn.
  eexists _, _. split; [reflexivity|]. split.
  - intros Hin. rewrite Forall_forall in Hlt. specialize (Hlt _ Hin). lia.
  - cbn. by rewrite <- (assoc_L (++)).
Qed.

(** X6. [Shutdown] is [Stop_Internal] followed by the reset of the
    singleton: the [Stop_Internal] the destructor runs as a fallback makes no
    call. For a running server every owned socket is closed and released
    exactly once, in list order and the listening socket last; for a server
    that is not running, and without an instance, nothing is called at all. *)
Theorem X6_shutdown_stops_once_and_resets this w :
  Shutdown (Some this) w = (None, (Stop_Internal this w).2) /\
  Shutdown None w = (None, w) /\
  exists evs,
    trace (Stop_Internal this w).2 = trace w ++ evs /\
    closed evs = (if bIsServerRunning this then owned this else []) /\
    released evs = (if bIsServerRunning this then owned this else []).
Proof.
  split; [|split; [done|]].
  - unfold Shutdown. destruct (bIsServerRunning this) eqn:Hrun.
    + destruct (Stop_Internal_running this w Hrun) as (H1 & _).
      destruct (Stop_Internal this w) as [this1 w1]. cbn in H1. subst this1.
      by cbn.
    + unfold Stop_Internal. rewrite Hrun. cbn. by rewrite Hrun.
  - destruct (bIsServerRunning this) eqn:Hrun.
    + destruct (Stop_Internal_running this w Hrun) as (_ & _ & _ & Ht).
      eexists. split; [exact Ht|].
      unfold closed, released. rewrite !omap_app.
      fold (closed (closing (owned this))). fold (released (closing (owned this))).
      rewrite closed_closing, released_closing. cbn. by rewrite !app_nil_r.
    + exists []. unfold Stop_Internal. rewrite Hrun. cbn. by rewrite app_nil_r.
Qed.

(** X15. While the server does not run, only [Start] does anything:
    [Stop], [Tick] and [Shutdown] on a server that is not running, or without
    an instance, return without a single call to the subsystem, the engine or
    the log, and leave a server that does not run. *)
Theorem X15_stopped_server_is_quiet (call : Call) i w :
  not_running i ->
  (forall Port, call <> CallStart Port) ->
  exists i', run call i w = Some (i', w) /\ not_running i'.
Proof.
  intros Hi Hcall.
  assert (Hg : bIsServerRunning (Get i) = false).
  { destruct i as [this|]; [exact Hi|done]. }
  destruct call as [Port| | |]; cbn [run].
  - by destruct (Hcall Port).
  - unfold Stop, Stop_Internal. rewrite Hg. cbn. by eexists.
  - unfold Tick, Tick_Internal. rewrite Hg. cbn. by eexists.
  - unfold Shutdown. destruct i as [this|]; [|by exists None].
    cbn in Hi. unfold Stop_Internal. rewrite Hi. cbn. rewrite Hi. by exists None.
Qed.

(** *** The module *)

(** X16. The module does not look at what [Start] returns: when the
    socket subsystem is missing or port 7000 cannot be bound at startup, the
    module is up with a server that does not run, and no later tick tries
    again; every tick, in whatever world, returns without a single call. *)
Theorem X16_failed_start_is_never_retried (p : Process) :
  Instance p = None ->
  subsystem (os (world p)) = false \/
  can_listen (os (world p)) (to_uint16 7000) = false ->
  let p1 := StartupModule p in
  not_running (Instance p1) /\
  forall (DeltaTime : float) (m : FUEMCPModule) (e : Editor) (w : World),
    FUEMCPModule_Tick DeltaTime (MkProcess m (Instance p1) e w)
    = Some (MkProcess m (Instance p1) e w).
Proof.
  intros Hi Hbad p1.
  assert (H : exists this, Instance p1 = Some this /\ bIsServerRunning this = false).
  { subst p1. unfold StartupModule, Start, Start_Internal, call_Listening, os_listen.
    rewrite Hi. cbn [Get new_server bIsServerRunning UE_LOG emit os].
    destruct (subsystem (os (world p))) eqn:Hs; cbn [negb].
    - destruct Hbad as [?|Hc]; [done|]. rewrite Hc.
      destruct (GEngine (editor p)); cbn; by eexists.
    - destruct (GEngine (editor p)); cbn; by eexists. }
  destruct H as (this & Hp1 & Hrun). rewrite Hp1. split; [exact Hrun|].
  intros dt m e w. unfold FUEMCPModule_Tick, Tick, Tick_Internal. cbn.
  by rewrite Hrun.
Qed.

(** X17. [ShutdownModule] after [StartupModule], with [GEngine] set or not
    set at both times and whatever the server did in between, leaves no
    singleton and the delegate list as it was before startup: the handle the
    module removes is the one it added. The list is any list of handles the
    editor issued. *)
Theorem X17_shutdown_undoes_startup (p : Process) (i : option UEMCPTCPServer) (w : World) :
  Forall (fun h => (h < next_delegate (editor p))%nat) (OnWorldTick (editor p)) ->
  let p1 := StartupModule p in
  let p2 := ShutdownModule (MkProcess (module_object p1) i (editor p1) w) in
  Instance p2 = None /\
  OnWorldTick (editor p2) = OnWorldTick (editor p) /\
  GEngine (editor p2) = GEngine (editor p).
Proof.
  intros Hlt p1 p2. subst p2 p1. unfold StartupModule, ShutdownModule.
  destruct (Start 7000 (Instance p) _) as [[r i1] w1].
  destruct (GEngine (editor p)) eqn:HG; cbn.
  - destruct (Shutdown i _) as [i2 w2] eqn:Hs. cbn. rewrite HG. cbn.
    split; [|split; [|done]].
    + unfold Shutdown in Hs. destruct i; [|by injection Hs as <- _].
      destruct (Stop_Internal _ _) as [t1 v1]. destruct (Stop_Internal t1 v1).
      by injection Hs as <- _.
    + rewrite filter_app. rewrite filter_cons_False, filter_nil by (intros H; by apply H).
      rewrite app_nil_r. induction Hlt as [|x a Hx _ IH]; [done|].
      rewrite filter_cons_True by lia. by rewrite IH.
  - destruct (Shutdown i _) as [i2 w2] eqn:Hs. cbn. rewrite HG. cbn.
    split; [|done].
    unfold Shutdown in Hs. destruct i; [|by injection Hs as <- _].
    destruct (Stop_Internal _ _) as [t1 v1]. destruct (Stop_Internal t1 v1).
    by injection Hs as <- _.
Qed.

End MoreLifecycleProperties.

(** ** Further properties of sessions *)

Section MoreSessionProperties.

Context {strings_ops : FStringOps} {json : JsonLibrary} {engine : Engine}.

Implicit Types (w : World) (evs : list Event) (this : UEMCPTCPServer)
  (c l : FSocket) (o : OS) (i : option UEMCPTCPServer).



(** X18. A tick never starts or stops the server: whatever the clients
    sent, whoever disconnected, and even for a server object that is not
    consistent, a tick that returns leaves [bIsServerRunning] and
    [ListenSocket] as they were. *)
Theorem X18_tick_keeps_flag_and_listen_socket this w this' w' :
  Tick_Internal this w = Some (this', w') ->
  ListenSocket this' = ListenSocket this /\
  bIsServerRunning this' = bIsServerRunning this.
Proof. apply Tick_Internal_keeps. Qed.

Lemma close_all_sockets (a : list FSocket) :
  forall w s,
    sockets (os (close_all a w)) !! s =
      (if bool_decide (s ∈ a) then None else sockets (os w) !! s) /\
    backlog (os (close_all a w)) = backlog (os w).
Proof.
  induction a as [|x a IH]; intros w s; cbn [close_all]; [done|].
  destruct (IH (call_DestroySocket x (call_Close x w)) s) as [-> ->].
  split; [|done]. cbn.
  destruct (decide (s ∈ a)) as [Hin|Hnin].
  - rewrite !bool_decide_eq_true_2; [done| |done]. by right.
  - rewrite (bool_decide_eq_false_2 (s ∈ a)) by done.
    destruct (decide (s = x)) as [->|Hne].
    + rewrite lookup_delete_eq, bool_decide_eq_true_2; [done|by left].
    + rewrite lookup_delete_ne by done.
      rewrite bool_decide_eq_false_2; [done|].
      by intros [?|?]%elem_of_cons.
Qed.

Lemma received_closing (a : list FSocket) : received (closing a) = [].
Proof. induction a as [|s a IH]; [done|]. exact IH. Qed.

(** X19. [Stop_Internal] on a running server releases exactly the
    sockets the server owns: afterwards the subsystem holds none of them, and
    every other socket, the backlog and the engine are as they were. Bytes
    still pending on the connections are dropped: no command is handled. *)
Theorem X19_stop_releases_exactly_the_owned_sockets this w :
  bIsServerRunning this = true ->
  let w' := (Stop_Internal this w).2 in
  (forall s, s ∈ owned this -> sockets (os w') !! s = None) /\
  (forall s, s ∉ owned this -> sockets (os w') !! s = sockets (os w) !! s) /\
  backlog (os w') = backlog (os w) /\
  host w' = host w /\
  exists evs, trace w' = trace w ++ evs /\ received evs = [].
Proof.
  intros Hrun w'.
  destruct (Stop_Internal_running this w Hrun) as (_ & Hh & _ & Ht).
  fold w' in Hh, Ht.
  assert (Hs : forall s,
             sockets (os w') !! s =
               (if bool_decide (s ∈ owned this) then None else sockets (os w) !! s) /\
             backlog (os w') = backlog (os w)).
  { intros s. subst w'. unfold Stop_Internal, owned. rewrite Hrun. cbn [negb snd].
    destruct (close_all_sockets (ConnectedSockets this) w s) as [Hc Hb].
    destruct (ListenSocket this) as [l|]; cbn.
    - rewrite Hb. split; [|done].
      destruct (decide (s = l)) as [->|Hne].
      + rewrite lookup_delete_eq, bool_decide_eq_true_2; [done|].
        apply elem_of_app. right. by apply list_elem_of_singleton.
      + rewrite lookup_delete_ne, Hc by done.
        destruct (decide (s ∈ ConnectedSockets this)) as [Hin|Hnin].
        * rewrite !bool_decide_eq_true_2; [done| |done]. apply elem_of_app. by left.
        * rewrite !bool_decide_eq_false_2; [done| |done].
          intros [?|?%list_elem_of_singleton]%elem_of_app; done.
    - rewrite Hb, Hc, app_nil_r. done. }
  split; [|split; [|split; [|split]]].
  - intros s Hin. destruct (Hs s) as [-> _]. by rewrite bool_decide_eq_true_2.
  - intros s Hnin. destruct (Hs s) as [-> _]. by rewrite bool_decide_eq_false_2.
  - apply (Hs 0%nat).
  - done.
  - eexists. split; [exact Ht|]. rewrite received_app, received_closing. done.
Qed.

End MoreSessionProperties.

(** *** The further properties on the sample server *)

Section MoreRuns.

Local Existing Instance Ref.strings_ops.
Local Existing Instance Ref.json.
Local Existing Instance Ref.engine.

Let w0 : World := Sample.world Sample.busy (Sample.editor true).
Let wk : World := Sample.world Sample.knocking (Sample.editor true).
Let wi : World := Sample.world Sample.idle (Sample.editor true).

Ltac show_consistent :=
  split; [intros _; by eexists|];
  split; [apply NoDup_ListNoDup; repeat constructor; cbn; intuition lia
         |repeat constructor; cbn; lia].

(** The end of the sample session is reachable, and it is the sample
    server in the sample network. *)
Lemma sample_final_reachable :
  reachable_in (fst Sample.final) (snd Sample.final) /\
  fst Sample.final = Some Sample.serving /\
  os (snd Sample.final) = Sample.busy.
Proof.
  split; [|split; vm_compute; reflexivity].
  destruct sample_session_reachable as [H _].
  rewrite Forall_forall in H. apply H.
  apply list_elem_of_In. vm_compute. tauto.
Qed.

(** Witness of X1: a tick at the end of the sample session. *)
Lemma X1_witness :
  exists i' w',
    run CallTick (fst Sample.final) (snd Sample.final) = Some (i', w') /\
    reachable_in i' w'.
Proof.
  apply (X1_no_call_fails_in_a_reachable_state CallTick
           (fst Sample.final) (snd Sample.final)).
  apply sample_final_reachable.
Defined.

(** Witness of X2: the sample server, at the end of the sample session. *)
Lemma X2_witness :
  NoDup (ConnectedSockets Sample.serving) /\
  (forall l, ListenSocket Sample.serving = Some l -> l ∉ ConnectedSockets Sample.serving).
Proof.
  apply (X2_no_socket_owned_twice (fst Sample.final) (snd Sample.final) Sample.serving).
  - apply sample_final_reachable.
  - apply sample_final_reachable.
Defined.

(** Witness of X3: the server after a [Start(7000)] that could not bind. *)
Lemma X3_witness :
  ListenSocket (MkServer None [] false) = None /\
  ConnectedSockets (MkServer None [] false) = [].
Proof.
  apply (X3_stopped_server_holds_no_socket
           (Some (MkServer None [] false)) (MkServer None [] false));
    [|reflexivity|reflexivity].
  apply (reachable_call (CallStart 7000) None
           (Sample.world Sample.blocked (Sample.editor true))
           (Some (MkServer None [] false))
           (Start 7000 None (Sample.world Sample.blocked (Sample.editor true))).2);
    [apply reachable_init | reflexivity].
Defined.

(** Witness of X5: the sample server stopped and started again on port
    7001. *)
Lemma X5_witness :
  exists l' w3,
    Start_Internal 7001 (Stop_Internal Sample.serving w0).1 w0
      = (true, MkServer (Some l') [] true, w3) /\
    (l' ∉ owned Sample.serving) /\
    trace w3 = trace w0 ++
      [EvListening (to_uint16 7001) 8;
       EvLog Log "UEMCP Server started, listening on port %d" [ArgD 7001]].
Proof.
  apply (X5_start_after_stop_listens_on_a_new_socket 7001 Sample.serving w0 w0);
    [show_consistent | reflexivity | cbn; lia | reflexivity | reflexivity].
Defined.

(** Witness of X8: a command without parameters, one without class, one
    with a location of two numbers, one for a class the editor does not
    know. *)
Lemma X8_witness :
  trace (HandleCommand Sample.spawn_bare w0) =
    [EvLog Error "Missing 'parameters' for spawn_actor." []] /\
  trace (HandleCommand Sample.spawn_classless w0) =
    [EvLog Error "Missing 'class' parameter for spawn_actor." []] /\
  trace (HandleCommand Sample.spawn_flat w0) =
    [EvLog Error
       "Invalid 'location' parameter for spawn_actor. Must be an array of 3 numbers."
       []] /\
  trace (HandleCommand Sample.spawn_sphere w0) =
    [EvFindObject "Sphere"; EvLog Error "Could not find class: %s" [ArgS "Sphere"]].
Proof.
  split; [|split; [|split]].
  - destruct (@X8_spawn_actor_validation_errors Ref.strings_ops Ref.json Ref.engine
                Sample.spawn_bare w0 (Sample.object_of Sample.spawn_bare) "spawn_actor")
      as (H & _); [reflexivity | reflexivity | reflexivity |].
    rewrite H; reflexivity.
  - destruct (@X8_spawn_actor_validation_errors Ref.strings_ops Ref.json Ref.engine
                Sample.spawn_classless w0 (Sample.object_of Sample.spawn_classless)
                "spawn_actor")
      as (_ & H & _); [reflexivity | reflexivity | reflexivity |].
    rewrite (H (Sample.parameters_of (Sample.object_of Sample.spawn_classless)));
      reflexivity.
  - destruct (@X8_spawn_actor_validation_errors Ref.strings_ops Ref.json Ref.engine
                Sample.spawn_flat w0 (Sample.object_of Sample.spawn_flat)
                "spawn_actor")
      as (_ & _ & H & _); [reflexivity | reflexivity | reflexivity |].
    rewrite (H (Sample.parameters_of (Sample.object_of Sample.spawn_flat))
               "Sphere"%string);
      [reflexivity | reflexivity | reflexivity | vm_compute; lia].
  - destruct (@X8_spawn_actor_validation_errors Ref.strings_ops Ref.json Ref.engine
                Sample.spawn_sphere w0 (Sample.object_of Sample.spawn_sphere)
                "spawn_actor")
      as (_ & _ & _ & H); [reflexivity | reflexivity | reflexivity |].
    rewrite (H (Sample.parameters_of (Sample.object_of Sample.spawn_sphere))
               "Sphere"%string (Ref.JNumber 1) (Ref.JNumber 2) (Ref.JNumber 3));
      reflexivity.
Defined.


(** Witness of X12: client 2 stays, client 3 goes, the knocking client
    comes last. *)
Lemma X12_witness :
  exists this' w',
    Tick_Internal Sample.serving wk = Some (this', w') /\
    ConnectedSockets this' =
      still_connected (os wk) (ConnectedSockets Sample.serving)
      ++ accepted_connected (os wk) /\
    (length (accepted_connected (os wk)) <= 1)%nat /\
    backlog (os w') =
      (if can_query (os wk) then tail (backlog (os wk)) else backlog (os wk)).
Proof.
  apply (X12_tick_connection_list Sample.serving wk); [show_consistent | reflexivity].
Defined.

(** Witness of X13: the sample server in the sample world. *)
Lemma X13_witness :
  exists this' w',
    Tick_Internal Sample.serving w0 = Some (this', w') /\
    forall c, c ∈ ConnectedSockets this' -> pending c (os w') = 0%nat.
Proof.
  apply (X13_tick_leaves_nothing_pending Sample.serving w0);
    [show_consistent | reflexivity].
Defined.

(** Witness of X14: the sample server with the network at rest. *)
Lemma X14_witness :
  Tick_Internal Sample.serving wi =
    Some (Sample.serving,
          MkWorld (os wi) (host wi)
            [EvHasPendingConnection 1%nat;
             EvHasPendingData 3%nat; EvGetConnectionState 3%nat;
             EvHasPendingData 2%nat; EvGetConnectionState 2%nat]).
Proof.
  apply (X14_idle_tick_changes_nothing Sample.serving wi 1%nat);
    [show_consistent | reflexivity | reflexivity | reflexivity |].
  repeat constructor.
Defined.

(** Witness of X15: a tick before anything was started. *)
Lemma X15_witness :
  exists i', run CallTick None w0 = Some (i', w0) /\ not_running i'.
Proof.
  apply (X15_stopped_server_is_quiet CallTick None w0); [exact I|discriminate].
Defined.

(** Witness of X16: startup on a subsystem that cannot bind port 7000. *)
Lemma X16_witness :
  not_running (Instance (StartupModule (Sample.fresh_process Sample.blocked))) /\
  forall (DeltaTime : float) (m : FUEMCPModule) (e : Editor) (w : World),
    FUEMCPModule_Tick DeltaTime
      (MkProcess m (Instance (StartupModule (Sample.fresh_process Sample.blocked))) e w)
    = Some (MkProcess m
              (Instance (StartupModule (Sample.fresh_process Sample.blocked))) e w).
Proof.
  apply (X16_failed_start_is_never_retried (Sample.fresh_process Sample.blocked));
    [reflexivity | right; reflexivity].
Defined.

(** Witness of X17: startup in a quiet world, then shutdown of the sample
    server. *)
Lemma X17_witness :
  Instance (ShutdownModule
              (MkProcess (module_object (StartupModule (Sample.fresh_process Sample.quiet)))
                         (Some Sample.serving)
                         (editor (StartupModule (Sample.fresh_process Sample.quiet)))
                         w0)) = None /\
  OnWorldTick (editor (ShutdownModule
              (MkProcess (module_object (StartupModule (Sample.fresh_process Sample.quiet)))
                         (Some Sample.serving)
                         (editor (StartupModule (Sample.fresh_process Sample.quiet)))
                         w0))) = [0; 1]%nat /\
  GEngine (editor (ShutdownModule
              (MkProcess (module_object (StartupModule (Sample.fresh_process Sample.quiet)))
                         (Some Sample.serving)
                         (editor (StartupModule (Sample.fresh_process Sample.quiet)))
                         w0))) = true.
Proof.
  apply (X17_shutdown_undoes_startup (Sample.fresh_process Sample.quiet)
           (Some Sample.serving) w0).
  repeat constructor.
Defined.

(** Witness of X18: the tick of the sample server in the sample world. *)
Lemma X18_witness :
  ListenSocket (fst Sample.ticked) = ListenSocket Sample.serving /\
  bIsServerRunning (fst Sample.ticked) = bIsServerRunning Sample.serving.
Proof.
  apply (X18_tick_keeps_flag_and_listen_socket Sample.serving w0
           (fst Sample.ticked) (snd Sample.ticked)).
  vm_compute. reflexivity.
Defined.

(** Witness of X19: stopping the sample server in the sample world. *)
Lemma X19_witness :
  (forall s, s ∈ owned Sample.serving ->
             sockets (os (Stop_Internal Sample.serving w0).2) !! s = None) /\
  (forall s, s ∉ owned Sample.serving ->
             sockets (os (Stop_Internal Sample.serving w0).2) !! s = sockets (os w0) !! s) /\
  backlog (os (Stop_Internal Sample.serving w0).2) = backlog (os w0) /\
  host (Stop_Internal Sample.serving w0).2 = host w0 /\
  exists evs,
    trace (Stop_Internal Sample.serving w0).2 = trace w0 ++ evs /\ received evs = [].
Proof.
  apply (X19_stop_releases_exactly_the_owned_sockets Sample.serving w0). reflexivity.
Defined.

End MoreRuns.
